(** * HWRouter: the login handshake of [hwrouter.py]

    A shallow embedding of the three login stages of class [HWRouter]
    ([login_do_csrf], [login_do_nonce], [login_do_proof]) and of the
    short-circuit chain of [__aenter__], with the library functions they call
    ([hashlib.sha256], [hmac.new], [hashlib.pbkdf2_hmac], [bytes.fromhex],
    [bytes.hex], [str.encode], [re.search], [uuid.uuid4]). *)

From Stdlib Require Import ZArith Lia List String Ascii.
From stdpp Require Import base option list strings gmap pretty.

Set Warnings "-register-all".
Local Open Scope Z_scope.

(** ** Bytes

    A Python [bytes] object is a list of integers, each in [0, 256). *)

Definition bytes := list Z.

Definition is_byte (b : Z) : Prop := 0 <= b < 256.

(** ** SHA-256 ([hashlib.sha256], FIPS 180-4) *)

Module SHA256.

Definition mask32 : Z := 4294967295.

Definition add32 (x y : Z) : Z := Z.land (x + y) mask32.

Definition rotr (n x : Z) : Z :=
  Z.lor (Z.shiftr x n) (Z.land (Z.shiftl x (32 - n)) mask32).

Definition not32 (x : Z) : Z := Z.lxor x mask32.

Definition Ch (x y z : Z) : Z :=
  Z.lxor (Z.land x y) (Z.land (not32 x) z).

Definition Maj (x y z : Z) : Z :=
  Z.lxor (Z.lxor (Z.land x y) (Z.land x z)) (Z.land y z).

Definition bsig0 (x : Z) : Z :=
  Z.lxor (Z.lxor (rotr 2 x) (rotr 13 x)) (rotr 22 x).

Definition bsig1 (x : Z) : Z :=
  Z.lxor (Z.lxor (rotr 6 x) (rotr 11 x)) (rotr 25 x).

Definition ssig0 (x : Z) : Z :=
  Z.lxor (Z.lxor (rotr 7 x) (rotr 18 x)) (Z.shiftr x 3).

Definition ssig1 (x : Z) : Z :=
  Z.lxor (Z.lxor (rotr 17 x) (rotr 19 x)) (Z.shiftr x 10).

Definition K : list Z :=
  [ 0x428A2F98; 0x71374491; 0xB5C0FBCF; 0xE9B5DBA5;
    0x3956C25B; 0x59F111F1; 0x923F82A4; 0xAB1C5ED5;
    0xD807AA98; 0x12835B01; 0x243185BE; 0x550C7DC3;
    0x72BE5D74; 0x80DEB1FE; 0x9BDC06A7; 0xC19BF174;
    0xE49B69C1; 0xEFBE4786; 0x0FC19DC6; 0x240CA1CC;
    0x2DE92C6F; 0x4A7484AA; 0x5CB0A9DC; 0x76F988DA;
    0x983E5152; 0xA831C66D; 0xB00327C8; 0xBF597FC7;
    0xC6E00BF3; 0xD5A79147; 0x06CA6351; 0x14292967;
    0x27B70A85; 0x2E1B2138; 0x4D2C6DFC; 0x53380D13;
    0x650A7354; 0x766A0ABB; 0x81C2C92E; 0x92722C85;
    0xA2BFE8A1; 0xA81A664B; 0xC24B8B70; 0xC76C51A3;
    0xD192E819; 0xD6990624; 0xF40E3585; 0x106AA070;
    0x19A4C116; 0x1E376C08; 0x2748774C; 0x34B0BCB5;
    0x391C0CB3; 0x4ED8AA4A; 0x5B9CCA4F; 0x682E6FF3;
    0x748F82EE; 0x78A5636F; 0x84C87814; 0x8CC70208;
    0x90BEFFFA; 0xA4506CEB; 0xBEF9A3F7; 0xC67178F2 ].

(** The eight working variables, and the running hash value. *)
Record regs := Regs {
  ra : Z; rb : Z; rc : Z; rd : Z; re : Z; rf : Z; rg : Z; rh : Z
}.

Definition H0 : regs :=
  Regs 0x6A09E667 0xBB67AE85 0x3C6EF372 0xA54FF53A
       0x510E527F 0x9B05688C 0x1F83D9AB 0x5BE0CD19.

(** One big-endian 32-bit word from four bytes, and back. *)
Definition word_of_bytes (b0 b1 b2 b3 : Z) : Z :=
  Z.lor (Z.lor (Z.shiftl b0 24) (Z.shiftl b1 16)) (Z.lor (Z.shiftl b2 8) b3).

Definition bytes_of_word (x : Z) : bytes :=
  [ Z.land (Z.shiftr x 24) 255; Z.land (Z.shiftr x 16) 255;
    Z.land (Z.shiftr x 8) 255; Z.land x 255 ].

Fixpoint words_of_bytes (l : bytes) : list Z :=
  match l with
  | b0 :: b1 :: b2 :: b3 :: l' => word_of_bytes b0 b1 b2 b3 :: words_of_bytes l'
  | _ => []
  end.

(** The message schedule: [extend n w] appends [n] further words to [w],
    each computed from the words 2, 7, 15 and 16 places before it. *)
Definition nthw (w : list Z) (i : nat) : Z := nth i w 0.

Fixpoint extend (n : nat) (w : list Z) : list Z :=
  match n with
  | O => w
  | S n' =>
      let t := length w in
      let x :=
        add32 (add32 (ssig1 (nthw w (t - 2))) (nthw w (t - 7)))
              (add32 (ssig0 (nthw w (t - 15))) (nthw w (t - 16))) in
      extend n' (w ++ [x])
  end.

Definition schedule (block : bytes) : list Z :=
  extend 48 (words_of_bytes block).

Definition round (r : regs) (kw : Z * Z) : regs :=
  let t1 :=
    add32 (add32 (add32 (rh r) (bsig1 (re r))) (Ch (re r) (rf r) (rg r)))
          (add32 (fst kw) (snd kw)) in
  let t2 := add32 (bsig0 (ra r)) (Maj (ra r) (rb r) (rc r)) in
  Regs (add32 t1 t2) (ra r) (rb r) (rc r) (add32 (rd r) t1) (re r) (rf r) (rg r).

Definition compress (h : regs) (block : bytes) : regs :=
  let r := fold_left round (combine K (schedule block)) h in
  Regs (add32 (ra h) (ra r)) (add32 (rb h) (rb r))
       (add32 (rc h) (rc r)) (add32 (rd h) (rd r))
       (add32 (re h) (re r)) (add32 (rf h) (rf r))
       (add32 (rg h) (rg r)) (add32 (rh h) (rh r)).

(** Padding: a 0x80 byte, zero bytes up to 56 modulo 64, then the bit length
    of the message as a big-endian 64-bit integer. *)
Definition pad (msg : bytes) : bytes :=
  let n := Z.of_nat (length msg) in
  let bits := 8 * n in
  msg ++ [128] ++ repeat 0 (Z.to_nat ((55 - n) mod 64))
      ++ bytes_of_word (Z.shiftr bits 32) ++ bytes_of_word bits.

(** Absorb the padded message, 64 bytes at a time. *)
Fixpoint absorb (fuel : nat) (h : regs) (l : bytes) : regs :=
  match fuel with
  | O => h
  | S fuel' =>
      match l with
      | [] => h
      | _ => absorb fuel' (compress h (firstn 64 l)) (skipn 64 l)
      end
  end.

Definition output (h : regs) : bytes :=
  bytes_of_word (ra h) ++ bytes_of_word (rb h) ++ bytes_of_word (rc h)
    ++ bytes_of_word (rd h) ++ bytes_of_word (re h) ++ bytes_of_word (rf h)
    ++ bytes_of_word (rg h) ++ bytes_of_word (rh h).

(** [sha256(msg).digest()] *)
Definition digest (msg : bytes) : bytes :=
  let p := pad msg in
  output (absorb (length p) H0 p).

End SHA256.

Definition sha256 : bytes -> bytes := SHA256.digest.

(** ** Hexadecimal text ([bytes.hex]) *)

Definition hexdigit (d : Z) : ascii :=
  match d with
  | 0 => "0" | 1 => "1" | 2 => "2" | 3 => "3" | 4 => "4" | 5 => "5" | 6 => "6"
  | 7 => "7" | 8 => "8" | 9 => "9" | 10 => "a" | 11 => "b" | 12 => "c"
  | 13 => "d" | 14 => "e" | _ => "f"
  end%char.

Fixpoint hex (l : bytes) : string :=
  match l with
  | [] => EmptyString
  | b :: l' =>
      String (hexdigit (Z.land (Z.shiftr b 4) 15))
        (String (hexdigit (Z.land b 15)) (hex l'))
  end.

(** The code point of a character, and the bytes of a literal [b"..."]. *)
Definition ord (c : ascii) : Z := Z.of_N (N_of_ascii c).

Definition latin1 (s : string) : bytes := map ord (list_ascii_of_string s).

(** ** HMAC ([hmac.new(key, msg, sha256).digest()], RFC 2104)

    The first positional argument of [hmac.new] is the key and the second is
    the message. *)

(** [bytes(p ^ q for p, q in zip(a, b))] *)
Definition xor_bytes (a b : bytes) : bytes :=
  map (fun pq => Z.lxor (fst pq) (snd pq)) (combine a b).

Definition hmac_block_size : nat := 64.

Definition hmac_key_block (key : bytes) : bytes :=
  let k := if Nat.ltb hmac_block_size (length key) then sha256 key else key in
  k ++ repeat 0 (hmac_block_size - length k).

Definition hmac_sha256 (key msg : bytes) : bytes :=
  let kb := hmac_key_block key in
  let inner := sha256 (map (Z.lxor 0x36) kb ++ msg) in
  sha256 (map (Z.lxor 0x5c) kb ++ inner).

(** ** PBKDF2 ([hashlib.pbkdf2_hmac("sha256", password, salt, iterations, dklen)]) *)

Definition pbkdf2_step (password : bytes) (ua : bytes * bytes) : bytes * bytes :=
  let u := hmac_sha256 password (fst ua) in
  (u, xor_bytes (snd ua) u).

Definition pbkdf2_block (password salt : bytes) (iterations : Z) (i : Z) : bytes :=
  let u1 := hmac_sha256 password (salt ++ SHA256.bytes_of_word i) in
  snd (Z.iter (iterations - 1) (pbkdf2_step password) (u1, u1)).

Fixpoint pbkdf2_blocks (password salt : bytes) (iterations : Z)
    (n : nat) (i : Z) : bytes :=
  match n with
  | O => []
  | S n' =>
      pbkdf2_block password salt iterations i
        ++ pbkdf2_blocks password salt iterations n' (i + 1)
  end.

Definition pbkdf2_sha256 (password salt : bytes) (iterations : Z) (dklen : nat)
    : bytes :=
  firstn dklen
    (pbkdf2_blocks password salt iterations (Nat.div (dklen + 31) 32) 1).

(** ** Python values and exceptions

    A Python [str] is a Rocq [string] whose characters are the code points
    below 256.  The values are those [json.loads] produces from integers,
    strings, booleans, null, arrays and objects; a [dict] is its list of items
    in insertion order, where a later item with the same key prevails. *)

Inductive pyval : Type :=
  | PNone
  | PBool (b : bool)
  | PInt (n : Z)
  | PStr (s : string)
  | PList (l : list pyval)
  | PDict (items : list (string * pyval)).

(** The exceptions the handshake can meet; [ClientError] stands for whatever
    the HTTP session raises. *)
Inductive exn : Type :=
  | KeyError (key : string)
  | TypeError
  | ValueError
  | AttributeError
  | OverflowError
  | UnicodeEncodeError
  | ClientError.

Inductive result (A : Type) : Type :=
  | Ok (a : A)
  | Raise (e : exn).
Arguments Ok {A} a.
Arguments Raise {A} e.

Global Instance result_ret : MRet result := fun A a => Ok a.

Global Instance result_fmap : FMap result := fun A B f r =>
  match r with
  | Ok a => Ok (f a)
  | Raise e => Raise e
  end.

Global Instance result_bind : MBind result := fun A B k r =>
  match r with
  | Ok a => k a
  | Raise e => Raise e
  end.

(** Truth value of an object, as [not] and [and] test it. *)
Definition truthy (v : pyval) : bool :=
  match v with
  | PNone => false
  | PBool b => b
  | PInt n => negb (n =? 0)
  | PStr s => negb (String.eqb s EmptyString)
  | PList l => match l with [] => false | _ => true end
  | PDict items => match items with [] => false | _ => true end
  end.

(** [str.encode("utf-8")] on code points below 256. *)
Definition utf8_char (c : ascii) : bytes :=
  let n := ord c in
  if n <? 128 then [n]
  else [Z.lor 192 (Z.shiftr n 6); Z.lor 128 (Z.land n 63)].

Definition encode_utf8 (s : string) : bytes :=
  flat_map utf8_char (list_ascii_of_string s).

(** [str.encode("ascii")] raises on a code point above 127. *)
Fixpoint encode_ascii (s : string) : result bytes :=
  match s with
  | EmptyString => Ok []
  | String c s' =>
      if ord c <? 128
      then l ← encode_ascii s'; Ok (ord c :: l)
      else Raise UnicodeEncodeError
  end.

(** [bytes.fromhex]: pairs of hexadecimal digits of either case, ASCII
    whitespace allowed between the pairs. *)
Definition hexval (c : ascii) : option Z :=
  let n := ord c in
  if (48 <=? n) && (n <=? 57) then Some (n - 48)
  else if (97 <=? n) && (n <=? 102) then Some (n - 87)
  else if (65 <=? n) && (n <=? 70) then Some (n - 55)
  else None.

Definition is_space (c : ascii) : bool :=
  let n := ord c in (n =? 32) || ((9 <=? n) && (n <=? 13)).

Fixpoint fromhex (s : string) : result bytes :=
  match s with
  | EmptyString => Ok []
  | String c s' =>
      if is_space c then fromhex s'
      else
        match hexval c, s' with
        | Some hi, String c' s'' =>
            match hexval c' with
            | Some lo => l ← fromhex s''; Ok (16 * hi + lo :: l)
            | None => Raise ValueError
            end
        | _, _ => Raise ValueError
        end
  end.

Definition bytes_fromhex (v : pyval) : result bytes :=
  match v with
  | PStr s => fromhex s
  | _ => Raise TypeError
  end.

(** [str()] and [repr()], which an f-string field applies to its value. *)
Definition hex2 (n : Z) : string :=
  String (hexdigit (Z.land (Z.shiftr n 4) 15))
    (String (hexdigit (Z.land n 15)) EmptyString).

Definition printable (n : Z) : bool :=
  ((32 <=? n) && (n <? 127)) || ((161 <=? n) && negb (n =? 173)).

Definition repr_char (quote : ascii) (c : ascii) : string :=
  let n := ord c in
  if Ascii.eqb c quote || Ascii.eqb c "\"
  then String "\" (String c EmptyString)
  else if n =? 9 then "\t"
  else if n =? 10 then "\n"
  else if n =? 13 then "\r"
  else if printable n then String c EmptyString
  else "\x" +:+ hex2 n.

Fixpoint has_char (q : ascii) (s : string) : bool :=
  match s with
  | EmptyString => false
  | String c s' => Ascii.eqb c q || has_char q s'
  end.

Fixpoint repr_chars (quote : ascii) (s : string) : string :=
  match s with
  | EmptyString => EmptyString
  | String c s' => repr_char quote c +:+ repr_chars quote s'
  end.

Definition double_quote : ascii := ascii_of_nat 34.

Definition repr_str (s : string) : string :=
  let quote : ascii :=
    if has_char "'" s && negb (has_char double_quote s) then double_quote
    else "'"%char in
  String quote (repr_chars quote s +:+ String quote EmptyString).

Fixpoint join (sep : string) (l : list string) : string :=
  match l with
  | [] => EmptyString
  | [x] => x
  | x :: l' => x +:+ sep +:+ join sep l'
  end.

Fixpoint py_repr (v : pyval) : string :=
  match v with
  | PNone => "None"
  | PBool true => "True"
  | PBool false => "False"
  | PInt n => pretty n
  | PStr s => repr_str s
  | PList l => "[" +:+ join ", " (map py_repr l) +:+ "]"
  | PDict items =>
      "{" +:+ join ", " (map (fun kv => repr_str (fst kv) +:+ ": " +:+ py_repr (snd kv)) items)
          +:+ "}"
  end.

Definition py_str (v : pyval) : string :=
  match v with
  | PStr s => s
  | _ => py_repr v
  end.

(** ** The token pattern ([re.search] with [re.DOTALL])

    [csrf_param.*?(\w{32}).*?csrf_token.*?(\w{32})]: literals, lazy runs of
    arbitrary characters and two groups of exactly 32 word characters, matched
    by backtracking in the order the [re] module tries the alternatives. *)

Inductive re_item : Type :=
  | Lit (s : string)
  | LazyAny
  | WordGroup (n : nat).

Definition csrf_pattern : list re_item :=
  [ Lit "csrf_param"; LazyAny; WordGroup 32; LazyAny;
    Lit "csrf_token"; LazyAny; WordGroup 32 ].

(** [\w] on code points below 256: what [str.isalnum] accepts, and [_]. *)
Definition is_word (c : ascii) : bool :=
  let n := ord c in
  ((48 <=? n) && (n <=? 57)) || ((65 <=? n) && (n <=? 90)) || (n =? 95)
  || ((97 <=? n) && (n <=? 122))
  || (n =? 170) || (n =? 178) || (n =? 179) || (n =? 181) || (n =? 185)
  || (n =? 186) || ((188 <=? n) && (n <=? 190))
  || ((192 <=? n) && (n <=? 214)) || ((216 <=? n) && (n <=? 246))
  || (248 <=? n).

Fixpoint strip_literal (l s : string) : option string :=
  match l, s with
  | EmptyString, _ => Some s
  | String a l', String b s' => if Ascii.eqb a b then strip_literal l' s' else None
  | String _ _, EmptyString => None
  end.

Fixpoint take_words (n : nat) (s : string) : option (string * string) :=
  match n, s with
  | O, _ => Some (EmptyString, s)
  | S n', String c s' =>
      if is_word c
      then match take_words n' s' with
           | Some (g, rest) => Some (String c g, rest)
           | None => None
           end
      else None
  | S _, EmptyString => None
  end.

(** [match_here pat s]: the groups captured when [pat] matches a prefix of [s]. *)
Fixpoint match_here (pat : list re_item) : string -> option (list string) :=
  match pat with
  | [] => fun _ => Some []
  | Lit l :: pat' => fun s =>
      match strip_literal l s with
      | Some s' => match_here pat' s'
      | None => None
      end
  | WordGroup n :: pat' => fun s =>
      match take_words n s with
      | Some (g, s') =>
          match match_here pat' s' with
          | Some gs => Some (g :: gs)
          | None => None
          end
      | None => None
      end
  | LazyAny :: pat' =>
      fix skip (s : string) : option (list string) :=
        match match_here pat' s with
        | Some gs => Some gs
        | None =>
            match s with
            | EmptyString => None
            | String _ s' => skip s'
            end
        end
  end.

(** [re.search]: the match at the leftmost position that has one. *)
Fixpoint re_search (pat : list re_item) (s : string) : option (list string) :=
  match match_here pat s with
  | Some gs => Some gs
  | None =>
      match s with
      | EmptyString => None
      | String _ s' => re_search pat s'
      end
  end.

(** [match[i]] for a group number [i >= 1]. *)
Definition group (m : list string) (i : nat) : string := nth (i - 1) m EmptyString.

(** ** The client nonce ([uuid.uuid4().hex * 2])

    [uuid4] reads 16 bytes from [os.urandom] as a big-endian integer [r] and
    overwrites the variant and version bits; [hex] is ['%032x' % int]. *)

Definition uuid4_int (r : Z) : Z :=
  let i := Z.land r (Z.lnot (Z.shiftl 0xc000 48)) in
  let i := Z.lor i (Z.shiftl 0x8000 48) in
  let i := Z.land i (Z.lnot (Z.shiftl 0xf000 64)) in
  Z.lor i (Z.shiftl 4 76).

Fixpoint hex_nibbles (k : nat) (n : Z) : string :=
  match k with
  | O => EmptyString
  | S k' =>
      String (hexdigit (Z.land (Z.shiftr n (4 * Z.of_nat k')) 15)) (hex_nibbles k' n)
  end.

Definition uuid4_hex (r : Z) : string := hex_nibbles 32 (uuid4_int r).

Definition client_nonce (r : Z) : string := uuid4_hex r +:+ uuid4_hex r.

(** ** The router session and its HTTP collaborator *)

Inductive stage : Type := CsrfStage | NonceStage | ProofStage.

Inductive request : Type :=
  | GET (path : string)
  | POST (path : string) (body : pyval).

(** What the session has done so far, oldest first: stages entered and
    requests issued. *)
Inductive event : Type :=
  | Enter (s : stage)
  | Sent (r : request).

(** A response: [res.status], and what [await res.text()] and
    [await res.json()] give (either may raise). *)
Record response : Type := Response {
  status : Z;
  text : result string;
  json : result pyval
}.

(** The world outside the program: the device answers a request given the
    requests it has seen before (or the transport raises), and [os.urandom(16)]
    yields the integer [urandom16] in [0, 2^128). *)
Record world : Type := World {
  serve : list request -> request -> result response;
  urandom16 : Z
}.

(** The fields of an [HWRouter] object, and with them the log of what the
    object has done (the log is not a field of the class: it records the
    execution for the properties below). *)
Record router : Type := Router {
  rt_password : string;
  rt_secrets : gmap string pyval;
  rt_logged_in : bool;
  rt_async_ctxmgr : option bool;
  rt_log : list event
}.

Definition sent (l : list event) : list request :=
  flat_map (fun e => match e with Sent r => [r] | Enter _ => [] end) l.

Definition entered (l : list event) : list stage :=
  flat_map (fun e => match e with Enter s => [s] | Sent _ => [] end) l.

(** Computations on the object: they may raise, and keep the mutations made
    before raising. *)
Definition M (A : Type) : Type := router -> result A * router.

Global Instance M_ret : MRet M := fun A a st => (Ok a, st).

Global Instance M_bind : MBind M := fun A B k m st =>
  match m st with
  | (Ok a, st') => k a st'
  | (Raise e, st') => (Raise e, st')
  end.

Definition lift {A} (r : result A) : M A := fun st => (r, st).

Definition reads {A} (f : router -> result A) : M A := fun st => (f st, st).

Definition emit (e : event) : M unit := fun st =>
  (Ok tt, Router (rt_password st) (rt_secrets st) (rt_logged_in st)
                 (rt_async_ctxmgr st) (rt_log st ++ [e])).

Definition with_secrets (f : gmap string pyval -> gmap string pyval) : M unit :=
  fun st =>
    (Ok tt, Router (rt_password st) (f (rt_secrets st)) (rt_logged_in st)
                   (rt_async_ctxmgr st) (rt_log st)).

(** [self.__secrets[key]] *)
Definition lookup_secret (sec : gmap string pyval) (key : string) : result pyval :=
  match sec !! key with
  | Some v => Ok v
  | None => Raise (KeyError key)
  end.

Definition get_secret (key : string) : M pyval :=
  reads (fun st => lookup_secret (rt_secrets st) key).

(** [self.__secrets[key] = v] *)
Definition set_secret (key : string) (v : pyval) : M unit :=
  with_secrets (fun sec => <[key := v]> sec).

(** [dict.update(items)] *)
Definition dict_update (items : list (string * pyval)) (sec : gmap string pyval)
    : gmap string pyval :=
  foldl (fun m kv => <[fst kv := snd kv]> m) sec items.

(** The value a dict with these items has under [key], [None] when absent. *)
Definition dict_get (items : list (string * pyval)) (key : string) : pyval :=
  default PNone (dict_update items ∅ !! key).

(** [d.get(key)] on the value [d]: an [AttributeError] when [d] is not a dict. *)
Definition py_get (d : pyval) (key : string) : result pyval :=
  match d with
  | PDict items => Ok (dict_get items key)
  | _ => Raise AttributeError
  end.

(** [await self.__session.get(path)] and [await self.__session.post(path, json = body)] *)
Definition session_request (w : world) (rq : request) : M response := fun st =>
  (serve w (sent (rt_log st)) rq,
   Router (rt_password st) (rt_secrets st) (rt_logged_in st)
          (rt_async_ctxmgr st) (rt_log st ++ [Sent rq])).

(** ** [HWRouter.__init__] *)

Definition init (password : string) (username : option string) : router :=
  let name :=
    match username with
    | Some u => if String.eqb u EmptyString then "admin"%string else u
    | None => "admin"%string
    end in
  Router password
         (<["password" := PStr password]> (<["username" := PStr name]> ∅))
         false None [].

(** ** [HWRouter.login_do_csrf] *)

Definition login_do_csrf (w : world) : M bool :=
  _ ← emit (Enter CsrfStage);
  res ← session_request w (GET "/html/index.html");
  body ← lift (text res);
  let m := re_search csrf_pattern body in
  if status res =? 200 then
    match m with
    | Some gs =>
        _ ← with_secrets (dict_update [("csrf_param", PStr (group gs 1));
                                       ("csrf_token", PStr (group gs 2))]);
        mret true
    | None => lift (Raise TypeError)
    end
  else mret false.

(** ** [HWRouter.login_do_nonce] *)

Definition nonce_path : string := "/api/system/user_login_nonce".

Definition login_do_nonce (w : world) : M bool :=
  _ ← emit (Enter NonceStage);
  _ ← set_secret "firstnonce" (PStr (client_nonce (urandom16 w)));
  csrf_param ← get_secret "csrf_param";
  csrf_token ← get_secret "csrf_token";
  username ← get_secret "username";
  firstnonce ← get_secret "firstnonce";
  let data :=
    PDict [("csrf", PDict [("csrf_param", csrf_param); ("csrf_token", csrf_token)]);
           ("data", PDict [("username", username); ("firstnonce", firstnonce)])] in
  res ← session_request w (POST nonce_path data);
  if status res =? 200 then
    d ← lift (json res);
    err ← lift (py_get d "err");
    if negb (truthy err) then
      errcode ← lift (py_get d "errcode");
      if negb (truthy errcode) then
        match d with
        | PDict items => _ ← with_secrets (dict_update items); mret true
        | _ => lift (Raise TypeError)   (* not reached: [d.get] has succeeded *)
        end
      else mret false
    else mret false
  else mret false.

(** ** [HWRouter.login_do_proof] *)

(** The [iterations] argument of [pbkdf2_hmac] is converted to a C [long] and
    must lie in [1, INT_MAX]; a [bool] is an [int]. *)
Definition INT_MAX : Z := 2147483647.
Definition LONG_MIN : Z := -9223372036854775808.

Definition py_iterations (v : pyval) : result Z :=
  let check (n : Z) : result Z :=
    if (n <? LONG_MIN) || (INT_MAX <? n) then Raise OverflowError
    else if n <=? 0 then Raise ValueError
    else Ok n in
  match v with
  | PInt n => check n
  | PBool b => check (if b then 1 else 0)
  | _ => Raise TypeError
  end.

Definition pbkdf2_hmac (password salt : bytes) (iterations : pyval) (dklen : nat)
    : result bytes :=
  n ← py_iterations iterations;
  Ok (pbkdf2_sha256 password salt n dklen).

(** Lines 116-120: the local [password]. *)
Definition salted_password (password : string) (sec : gmap string pyval)
    : result bytes :=
  salt_hex ← lookup_secret sec "salt";
  salt ← bytes_fromhex salt_hex;
  iterations ← lookup_secret sec "iterations";
  pbkdf2_hmac (encode_utf8 password) salt iterations 32.

(** Line 121: [_new(b"Client Key", password, _sha256).digest()]. *)
Definition client_key (password : bytes) : bytes :=
  hmac_sha256 (latin1 "Client Key") password.

(** Line 122. *)
Definition stored_key (clientkey : bytes) : bytes := sha256 clientkey.

(** Lines 123-127: the f-string [authmsg]. *)
Definition auth_message (sec : gmap string pyval) : result string :=
  firstnonce ← lookup_secret sec "firstnonce";
  servernonce ← lookup_secret sec "servernonce";
  servernonce' ← lookup_secret sec "servernonce";
  Ok (py_str firstnonce +:+ "," +:+ py_str servernonce +:+ "," +:+ py_str servernonce').

(** Lines 128-130: [_new(authmsg.encode("ascii"), storekey, _sha256).digest()]. *)
Definition client_signature (authmsg : string) (storekey : bytes) : result bytes :=
  key ← encode_ascii authmsg;
  Ok (hmac_sha256 key storekey).

(** Lines 131-133: [bytes(p ^ q for p, q in zip(clientkey, clientsig)).hex()]. *)
Definition client_proof (clientkey clientsig : bytes) : string :=
  hex (xor_bytes clientkey clientsig).

Definition proof_path : string := "/api/system/user_login_proof".

Definition login_do_proof (w : world) : M bool :=
  _ ← emit (Enter ProofStage);
  password ← reads (fun st => salted_password (rt_password st) (rt_secrets st));
  let clientkey := client_key password in
  let storekey := stored_key clientkey in
  authmsg ← reads (fun st => auth_message (rt_secrets st));
  clientsig ← lift (client_signature authmsg storekey);
  let clientproof := client_proof clientkey clientsig in
  csrf_param ← get_secret "csrf_param";
  csrf_token ← get_secret "csrf_token";
  finalnonce ← get_secret "servernonce";
  let data :=
    PDict [("csrf", PDict [("csrf_param", csrf_param); ("csrf_token", csrf_token)]);
           ("data", PDict [("clientproof", PStr clientproof); ("finalnonce", finalnonce)])] in
  res ← session_request w (POST proof_path data);
  if status res =? 200 then
    d ← lift (json res);
    err ← lift (py_get d "err");
    if negb (truthy err) then
      errcode ← lift (py_get d "errcode");
      if negb (truthy errcode) then mret true else mret false
    else mret false
  else mret false.

(** ** [HWRouter.__aenter__]

    The chain [a and b and c] of line 41-45: a stage is awaited only when the
    stages before it returned [True]. *)

Definition handshake (w : world) : M bool :=
  csrf_ok ← login_do_csrf w;
  if csrf_ok : bool then
    nonce_ok ← login_do_nonce w;
    if nonce_ok : bool then login_do_proof w else mret false
  else mret false.

Definition aenter (w : world) : M unit := fun st =>
  match rt_async_ctxmgr st with
  | Some _ => (Ok tt, st)
  | None =>
      let st := Router (rt_password st) (rt_secrets st) (rt_logged_in st)
                       (Some true) (rt_log st) in
      match handshake w st with
      | (Ok b, st') =>
          (Ok tt, Router (rt_password st') (rt_secrets st') b
                         (rt_async_ctxmgr st') (rt_log st'))
      | (Raise e, st') => (Raise e, st')
      end
  end.

(** ** [HWRouter.__aexit__], [logged_in], [get] and [post] *)

(** [__aexit__] returns at once unless the object is entered; otherwise the
    session is exited (the collaborator's business) and the flag becomes
    [False]. *)
Definition aexit : M unit := fun st =>
  match rt_async_ctxmgr st with
  | Some true =>
      (Ok tt, Router (rt_password st) (rt_secrets st) (rt_logged_in st)
                     (Some false) (rt_log st))
  | _ => (Ok tt, st)
  end.

Definition logged_in (st : router) : bool := rt_logged_in st.

(** The wrappers pass their arguments to the session: a path, and for [post]
    the [json] body. *)
Definition get (w : world) (path : string) : M response :=
  session_request w (GET path).

Definition post (w : world) (path : string) (body : pyval) : M response :=
  session_request w (POST path body).

(** ** The entry point [main]

    [async with HWRouter(password = argv[1]) as rt]: the body runs when
    [__aenter__] returned, [__aexit__] runs after the body whether it raised
    or not, and an exception of the body is raised again.  [main password] is
    the run for [argv[1] = password]; the value is the list of lines printed. *)

Definition wandetect_path : string := "/api/ntwk/wandetect".

(** [d[key]] for a string key: only a dict can be subscripted by a string. *)
Definition py_getitem (d : pyval) (key : string) : result pyval :=
  match d with
  | PDict items =>
      match dict_update items ∅ !! key with
      | Some v => Ok v
      | None => Raise (KeyError key)
      end
  | _ => Raise TypeError
  end.

Definition main_body (w : world) : M (list string) := fun st =>
  if logged_in st then
    (res ← get w wandetect_path;
     if status res =? 200 then
       d ← lift (json res);
       address ← lift (py_getitem d "ExternalIPAddress");
       mret [py_str address]
     else mret []) st
  else (Ok [], st).

Definition main (w : world) (password : string) : result (list string) * router :=
  match aenter w (init password None) with
  | (Raise e, st) => (Raise e, st)
  | (Ok _, st) =>
      match main_body w st with
      | (r, st') => (r, snd (aexit st'))
      end
  end.

(** The user name [__init__] stores. *)
Definition effective_username (username : option string) : string :=
  match username with
  | Some u => if String.eqb u EmptyString then "admin"%string else u
  | None => "admin"%string
  end.

(** A text of exactly 32 word characters, as a group of the token pattern
    captures it. *)
Definition is_token (s : string) : Prop :=
  String.length s = 32%nat
  /\ Forall (fun c => is_word c = true) (list_ascii_of_string s).

Definition ascii_only (s : string) : Prop :=
  Forall (fun c => ord c < 128) (list_ascii_of_string s).

(** The body of the proof request for given store values. *)
Definition proof_request (csrf_param csrf_token : pyval) (clientproof : string)
    (finalnonce : pyval) : request :=
  POST proof_path
    (PDict [("csrf", PDict [("csrf_param", csrf_param); ("csrf_token", csrf_token)]);
            ("data", PDict [("clientproof", PStr clientproof);
                            ("finalnonce", finalnonce)])]).

(** ** Vocabulary of the properties *)

(** A lower-case hexadecimal digit, as [bytes.hex] and ['%x'] print them. *)
Definition is_hexdigit (c : ascii) : bool :=
  let n := ord c in
  ((48 <=? n) && (n <=? 57)) || ((97 <=? n) && (n <=? 102)).

Definition all_hexdigits (s : string) : Prop :=
  Forall (fun c => is_hexdigit c = true) (list_ascii_of_string s).

(** The derivation with the roles the SCRAM description gives the HMAC
    arguments: the salted password, respectively the stored key, is the key. *)
Definition spec_client_key (saltedPassword : bytes) : bytes :=
  hmac_sha256 saltedPassword (latin1 "Client Key").

Definition spec_client_signature (storedKey : bytes) (authMessage : string)
    : result bytes :=
  message ← encode_ascii authMessage;
  Ok (hmac_sha256 storedKey message).

(** The body of the nonce request for given store values. *)
Definition nonce_request (csrf_param csrf_token username : pyval) (r : Z) : request :=
  POST nonce_path
    (PDict [("csrf", PDict [("csrf_param", csrf_param); ("csrf_token", csrf_token)]);
            ("data", PDict [("username", username);
                            ("firstnonce", PStr (client_nonce r))])]).

(** A device for concrete runs: it serves a login page with both tokens (or
    the given page), and answers the nonce and the proof request with status
    200 and the given JSON values. *)
Definition page_with_tokens : string :=
  "<meta name=csrf_param content=0123456789abcdef0123456789abcdef>" +:+
  "<meta name=csrf_token content=fedcba9876543210fedcba9876543210>".

Definition device (page : string) (nonce_reply proof_reply : pyval) (r : Z) : world :=
  World
    (fun _ rq =>
       match rq with
       | GET _ => Ok (Response 200 (Ok page) (Raise ValueError))
       | POST path _ =>
           if String.eqb path nonce_path
           then Ok (Response 200 (Ok EmptyString) (Ok nonce_reply))
           else Ok (Response 200 (Ok EmptyString) (Ok proof_reply))
       end)
    r.

(** Requests that are all POSTs to one path. *)
Definition posts_to (path : string) (reqs : list request) : Prop :=
  Forall (fun rq => exists body, rq = POST path body) reqs.

(** The states in which the orchestrator invokes the proof stage: those the
    nonce stage leaves when it and the CSRF stage before it returned true. *)
Definition reaches_proof (w : world) (st st2 : router) : Prop :=
  exists st1,
    login_do_csrf w st = (Ok true, st1) /\ login_do_nonce w st1 = (Ok true, st2).

Definition has_secret (st : router) (key : string) : Prop :=
  is_Some (rt_secrets st !! key).

(** A fresh session, a device whose nonce and proof replies are [{}], and the
    states a run on a device passes through. *)
Definition fresh : router := init "test" None.

Definition empty_reply_device : world :=
  device page_with_tokens (PDict []) (PDict []) 0.

Definition after_csrf (w : world) : router := snd (login_do_csrf w fresh).

Definition after_nonce (w : world) : router := snd (login_do_nonce w (after_csrf w)).

(** The bit positions [uuid4] overwrites: the variant (bits 62 and 63) and the
    version (bits 76 to 79). *)
Definition uuid4_fixed_bit (i : Z) : bool :=
  (i =? 62) || (i =? 63) || ((76 <=? i) && (i <=? 79)).

(** Two draws of [os.urandom(16)] that agree on every bit [uuid4] keeps. *)
Definition agree_on_kept_bits (r1 r2 : Z) : Prop :=
  forall i, 0 <= i < 128 -> uuid4_fixed_bit i = false ->
    Z.testbit r1 i = Z.testbit r2 i.

(** A device whose nonce reply carries salt 0a0b0c0d, one iteration and the
    server nonce bbbb, and whose proof reply is [{}]. *)
Definition full_reply_device : world :=
  device page_with_tokens
    (PDict [("salt", PStr "0a0b0c0d"); ("iterations", PInt 1);
            ("servernonce", PStr "bbbb")])
    (PDict []) 0.

(** The object as [__aenter__] hands it to the stages: marked as entered. *)
Definition entering (st : router) : router :=
  Router (rt_password st) (rt_secrets st) (rt_logged_in st) (Some true) (rt_log st).

(** The fields no stage writes. *)
Definition same_identity (st st' : router) : Prop :=
  rt_password st' = rt_password st
  /\ rt_logged_in st' = rt_logged_in st
  /\ rt_async_ctxmgr st' = rt_async_ctxmgr st.

Definition index_request : request := GET "/html/index.html".

(** A device that accepts the login and answers every other GET with status
    200 and a JSON object holding the WAN address 203.0.113.7. *)
Definition wan_device : world :=
  World
    (fun _ rq =>
       match rq with
       | GET path =>
           if String.eqb path "/html/index.html"
           then Ok (Response 200 (Ok page_with_tokens) (Raise ValueError))
           else Ok (Response 200 (Ok EmptyString)
                      (Ok (PDict [("ExternalIPAddress", PStr "203.0.113.7")])))
       | POST path _ =>
           if String.eqb path nonce_path
           then Ok (Response 200 (Ok EmptyString)
                      (Ok (PDict [("salt", PStr "0a0b0c0d"); ("iterations", PInt 1);
                                  ("servernonce", PStr "bbbb")])))
           else Ok (Response 200 (Ok EmptyString) (Ok (PDict [])))
       end)
    0.

(** The three secrets the nonce response is expected to bring. *)
Definition server_secrets : list string := ["salt"; "iterations"; "servernonce"]%string.

(** * Properties *)

(** ** Test vectors for the library functions *)

Example sha256_abc :
  hex (sha256 (latin1 "abc"))
  = "ba7816bf8f01cfea414140de5dae2223b00361a396177a9cb410ff61f20015ad"%string.
Proof. vm_compute. reflexivity. Qed.

Example hmac_rfc4231_case2 :
  hex (hmac_sha256 (latin1 "Jefe") (latin1 "what do ya want for nothing?"))
  = "5bdcc146bf60754e6a042426089575c75a003f089d2739839dec58b964ec3843"%string.
Proof. vm_compute. reflexivity. Qed.

Example hmac_long_key :
  hex (hmac_sha256 (repeat 107 100) (latin1 "msg"))
  = "bd56a1782c2830e8abc6ed866a57a1230661e650b84c62f7ee3accc5fa5af491"%string.
Proof. vm_compute. reflexivity. Qed.

Example pbkdf2_two_rounds :
  hex (pbkdf2_sha256 (latin1 "password") (latin1 "salt") 2 40)
  = "ae4d0c95af6b46d32d0adff928f06dd02a303f8ef3c251dfd6e2d85a95474c43830651afcb5c862f"%string.
Proof. vm_compute. reflexivity. Qed.

Example py_str_nested :
  py_str (PDict [("a", PInt 1); ("b", PList [PNone; PBool true; PStr "x"; PInt (-3); PDict []]);
                 ("c", PList [])])
  = "{'a': 1, 'b': [None, True, 'x', -3, {}], 'c': []}"%string.
Proof. vm_compute. reflexivity. Qed.

Example fromhex_spaces : fromhex "0A 0b" = Ok [10; 11].
Proof. reflexivity. Qed.

Example fromhex_split_pair : fromhex "0 a" = Raise ValueError.
Proof. reflexivity. Qed.

Example csrf_pattern_page :
  re_search csrf_pattern
    ("<meta name=csrf_param content=0123456789abcdef0123456789abcdef>" +:+
     "<meta name=csrf_token content=fedcba9876543210fedcba9876543210>")
  = Some ["0123456789abcdef0123456789abcdef"; "fedcba9876543210fedcba9876543210"]%string.
Proof. vm_compute. reflexivity. Qed.

Example uuid4_hex_zero : uuid4_hex 0 = "00000000000040008000000000000000"%string.
Proof. vm_compute. reflexivity. Qed.

(** ** Digests, XOR and hexadecimal text *)

Lemma sha256_length (msg : bytes) : length (sha256 msg) = 32%nat.
Proof. reflexivity. Qed.

Lemma hmac_sha256_length (key msg : bytes) : length (hmac_sha256 key msg) = 32%nat.
Proof. unfold hmac_sha256. apply sha256_length. Qed.

Lemma client_key_length (password : bytes) : length (client_key password) = 32%nat.
Proof. apply hmac_sha256_length. Qed.

Lemma client_signature_length (authmsg : string) (storekey clientsig : bytes) :
  client_signature authmsg storekey = Ok clientsig -> length clientsig = 32%nat.
Proof.
  unfold client_signature.
  destruct (encode_ascii authmsg) as [key|e]; simpl; [|discriminate].
  intros [= <-]. apply hmac_sha256_length.
Qed.

Lemma xor_bytes_length (a b : bytes) :
  length (xor_bytes a b) = Nat.min (length a) (length b).
Proof. unfold xor_bytes. rewrite length_map. apply length_combine. Qed.

Lemma xor_bytes_nth (a b : bytes) (i : nat) :
  (i < length a)%nat -> (i < length b)%nat ->
  nth i (xor_bytes a b) 0 = Z.lxor (nth i a 0) (nth i b 0).
Proof.
  revert b i. induction a as [|x a IH]; intros [|y b] i Ha Hb; simpl in *; try lia.
  destruct i as [|i]; [reflexivity|]. apply IH; lia.
Qed.

Lemma hex_length (l : bytes) : String.length (hex l) = (2 * length l)%nat.
Proof. induction l as [|b l IH]; simpl; [reflexivity|]. rewrite IH. lia. Qed.

Lemma hex_substring (l : bytes) (i : nat) :
  (i < length l)%nat -> substring (2 * i) 2 (hex l) = hex2 (nth i l 0).
Proof.
  revert i. induction l as [|b l IH]; intros i Hi; simpl in Hi; [lia|].
  destruct i as [|i].
  - simpl. destruct (hex l); reflexivity.
  - replace (2 * S i)%nat with (S (S (2 * i))) by lia.
    simpl hex. simpl substring. simpl nth. apply IH. lia.
Qed.

Lemma hexdigit_is_hexdigit (d : Z) : is_hexdigit (hexdigit d) = true.
Proof.
  destruct d as [|p|p]; try reflexivity.
  do 5 (try (destruct p as [p|p|]; try reflexivity)).
Qed.

Lemma hex_all_hexdigits (l : bytes) : all_hexdigits (hex l).
Proof.
  unfold all_hexdigits.
  induction l as [|b l IH]; simpl; [constructor|].
  repeat constructor; auto using hexdigit_is_hexdigit.
Qed.

(** The proof text of any two 32-byte strings: two lower-case hexadecimal
    digits per byte of the XOR. *)
Lemma client_proof_spec (clientkey clientsig : bytes) :
  length clientkey = 32%nat -> length clientsig = 32%nat ->
  String.length (client_proof clientkey clientsig) = 64%nat
  /\ all_hexdigits (client_proof clientkey clientsig)
  /\ forall i, (i < 32)%nat ->
       substring (2 * i) 2 (client_proof clientkey clientsig)
       = hex2 (Z.lxor (nth i clientkey 0) (nth i clientsig 0)).
Proof.
  intros Hk Hs. unfold client_proof. split; [|split].
  - rewrite hex_length, xor_bytes_length, Hk, Hs. reflexivity.
  - apply hex_all_hexdigits.
  - intros i Hi. rewrite hex_substring.
    + rewrite xor_bytes_nth; [reflexivity| |]; lia.
    + rewrite xor_bytes_length, Hk, Hs. simpl. lia.
Qed.

(** ** The proof computation *)

(** C9: the client key and the client signature the stage computes are 32
    bytes each; the client proof is the hexadecimal text of their bytewise XOR
    (characters 2i and 2i+1 are the two digits of byte i of the XOR), and it
    is always 64 hexadecimal characters long. *)
Theorem client_proof_hex_xor (password : bytes) (authmsg : string) (clientsig : bytes) :
  client_signature authmsg (stored_key (client_key password)) = Ok clientsig ->
  let clientkey := client_key password in
  let clientproof := client_proof clientkey clientsig in
  length clientkey = 32%nat
  /\ length clientsig = 32%nat
  /\ (forall i, (i < 32)%nat ->
        substring (2 * i) 2 clientproof
        = hex2 (Z.lxor (nth i clientkey 0) (nth i clientsig 0)))
  /\ String.length clientproof = 64%nat
  /\ all_hexdigits clientproof.
Proof.
  intros Hsig clientkey clientproof.
  pose proof (client_key_length password) as Hk.
  pose proof (client_signature_length _ _ _ Hsig) as Hs.
  destruct (client_proof_spec clientkey clientsig Hk Hs) as (Hlen & Hhex & Hxor).
  repeat split; assumption.
Qed.

Lemma client_proof_hex_xor_witness :
  let password := pbkdf2_sha256 (encode_utf8 "test") [10; 11; 12; 13] 1 32 in
  let clientsig :=
    hmac_sha256 (latin1 "aa,bbbb,bbbb") (stored_key (client_key password)) in
  String.length (client_proof (client_key password) clientsig) = 64%nat.
Proof.
  intros password clientsig.
  apply (client_proof_hex_xor password "aa,bbbb,bbbb" clientsig).
  reflexivity.
Defined.

(** Reduce a bind of the [result] monad whose first computation is known. *)
Ltac result_step := cbv beta iota delta [mbind result_bind bytes_fromhex].

Lemma lookup_secret_Some (sec : gmap string pyval) (key : string) (v : pyval) :
  sec !! key = Some v -> lookup_secret sec key = Ok v.
Proof. unfold lookup_secret. intros ->. reflexivity. Qed.

Lemma py_iterations_int (n : Z) : 1 <= n <= INT_MAX -> py_iterations (PInt n) = Ok n.
Proof.
  intros [Hlo Hhi]. unfold py_iterations, INT_MAX, LONG_MIN in *.
  destruct (Z.ltb_spec n (-9223372036854775808)); [lia|].
  destruct (Z.ltb_spec 2147483647 n); [lia|].
  destruct (Z.leb_spec n 0); [lia|]. reflexivity.
Qed.

(** The salted password is PBKDF2 of the UTF-8 password, the decoded salt and
    the iteration count. *)
Lemma salted_password_pbkdf2 (pw : string) (sec : gmap string pyval)
    (salt_hex : string) (salt : bytes) (it : Z) :
  sec !! "salt" = Some (PStr salt_hex) ->
  fromhex salt_hex = Ok salt ->
  sec !! "iterations" = Some (PInt it) ->
  1 <= it <= INT_MAX ->
  salted_password pw sec = Ok (pbkdf2_sha256 (encode_utf8 pw) salt it 32).
Proof.
  intros Hsalt Hhex Hit Hrange. unfold salted_password, pbkdf2_hmac.
  rewrite (lookup_secret_Some _ _ _ Hsalt). result_step.
  rewrite Hhex. result_step.
  rewrite (lookup_secret_Some _ _ _ Hit). result_step.
  rewrite (py_iterations_int _ Hrange). reflexivity.
Qed.

(** C1, as the code has it: the client key is HMAC-SHA256 with the literal
    bytes "Client Key" as the HMAC key and the salted password
    PBKDF2-HMAC-SHA256(password, salt_bytes, iterations, 32) as the message,
    for every password, every salt that is hexadecimal text and every
    iteration count in [1, INT_MAX]. *)
Theorem client_key_label_is_hmac_key (pw : string) (sec : gmap string pyval)
    (salt_hex : string) (salt : bytes) (it : Z) :
  sec !! "salt" = Some (PStr salt_hex) ->
  fromhex salt_hex = Ok salt ->
  sec !! "iterations" = Some (PInt it) ->
  1 <= it <= INT_MAX ->
  client_key <$> salted_password pw sec
  = Ok (hmac_sha256 (latin1 "Client Key") (pbkdf2_sha256 (encode_utf8 pw) salt it 32)).
Proof.
  intros Hsalt Hhex Hit Hrange.
  rewrite (salted_password_pbkdf2 pw sec salt_hex salt it) by assumption.
  reflexivity.
Qed.

Lemma client_key_label_is_hmac_key_witness :
  client_key <$> salted_password "test"
    (<["salt" := PStr "0a0b0c0d"]> (<["iterations" := PInt 1]> ∅))
  = Ok (hmac_sha256 (latin1 "Client Key")
          (pbkdf2_sha256 (encode_utf8 "test") [10; 11; 12; 13] 1 32)).
Proof.
  apply (client_key_label_is_hmac_key "test" _ "0a0b0c0d" [10; 11; 12; 13] 1).
  - reflexivity.
  - reflexivity.
  - reflexivity.
  - unfold INT_MAX. lia.
Defined.

(** C1 as stated fails: with password "test", salt 0a0b0c0d and one iteration
    the client key differs from HMAC-SHA256 keyed by the salted password over
    the message "Client Key". *)
Lemma client_key_not_keyed_by_salted_password :
  client_key <$> salted_password "test"
    (<["salt" := PStr "0a0b0c0d"]> (<["iterations" := PInt 1]> ∅))
  <> spec_client_key <$> Ok (pbkdf2_sha256 (encode_utf8 "test") [10; 11; 12; 13] 1 32).
Proof.
  intros H. vm_compute in H. discriminate H.
Qed.

(** C2, as the code has it: the client signature is HMAC-SHA256 with the
    ASCII-encoded authentication message as the HMAC key and the stored key as
    the message, for every stored key and every authentication message that
    ASCII can encode. *)
Theorem client_signature_authmsg_is_hmac_key (storekey : bytes) (authmsg : string)
    (encoded : bytes) :
  encode_ascii authmsg = Ok encoded ->
  client_signature authmsg storekey = Ok (hmac_sha256 encoded storekey).
Proof.
  intros Henc. unfold client_signature. rewrite Henc. reflexivity.
Qed.

Lemma client_signature_authmsg_is_hmac_key_witness :
  client_signature "aa,bbbb,bbbb" (sha256 [])
  = Ok (hmac_sha256 (latin1 "aa,bbbb,bbbb") (sha256 [])).
Proof.
  apply (client_signature_authmsg_is_hmac_key (sha256 []) "aa,bbbb,bbbb").
  reflexivity.
Defined.

(** C2 as stated fails: for the stored key SHA-256 of the empty string and the authentication
    message "aa,bbbb,bbbb" the client signature differs from HMAC-SHA256 keyed
    by the stored key over the encoded message. *)
Lemma client_signature_not_keyed_by_stored_key :
  client_signature "aa,bbbb,bbbb" (sha256 [])
  <> spec_client_signature (sha256 []) "aa,bbbb,bbbb".
Proof.
  intros H. vm_compute in H. discriminate H.
Qed.

(** A message that ASCII cannot encode yields no signature at all. *)
Lemma client_signature_non_ascii (storekey : bytes) :
  client_signature (String (ascii_of_nat 233) EmptyString) storekey
  = Raise UnicodeEncodeError.
Proof. reflexivity. Qed.



(** ** The client nonce *)

Lemma hex_nibbles_length (k : nat) (n : Z) : String.length (hex_nibbles k n) = k.
Proof. induction k as [|k IH]; simpl; [reflexivity|]. now rewrite IH. Qed.

Lemma hex_nibbles_all_hexdigits (k : nat) (n : Z) : all_hexdigits (hex_nibbles k n).
Proof.
  unfold all_hexdigits. induction k as [|k IH]; simpl; constructor; auto.
  apply hexdigit_is_hexdigit.
Qed.

Lemma substring_append_left (a b : string) :
  substring 0 (String.length a) (a +:+ b) = a.
Proof.
  induction a as [|c a IH]; simpl.
  - destruct b; reflexivity.
  - now rewrite IH.
Qed.

Lemma substring_whole (b : string) : substring 0 (String.length b) b = b.
Proof. induction b as [|c b IH]; simpl; [reflexivity|]. now rewrite IH. Qed.

Lemma substring_append_right (a b : string) :
  substring (String.length a) (String.length b) (a +:+ b) = b.
Proof.
  induction a as [|c a IH]; simpl; [apply substring_whole|exact IH].
Qed.

Lemma string_length_append (a b : string) :
  String.length (a +:+ b) = (String.length a + String.length b)%nat.
Proof. induction a as [|c a IH]; simpl; [reflexivity|]. now rewrite IH. Qed.

Lemma all_hexdigits_append (a b : string) :
  all_hexdigits a -> all_hexdigits b -> all_hexdigits (a +:+ b).
Proof.
  unfold all_hexdigits. induction a as [|c a IH]; simpl; [auto|].
  intros Ha Hb. inversion Ha; subst. constructor; auto.
Qed.

(** The two halves of the client nonce. *)
Lemma client_nonce_halves (r : Z) :
  String.length (uuid4_hex r) = 32%nat
  /\ String.length (client_nonce r) = 64%nat
  /\ substring 0 32 (client_nonce r) = uuid4_hex r
  /\ substring 32 32 (client_nonce r) = uuid4_hex r.
Proof.
  assert (Hlen : String.length (uuid4_hex r) = 32%nat)
    by apply hex_nibbles_length.
  split; [exact Hlen|]. unfold client_nonce. split; [|split].
  - rewrite string_length_append, Hlen. reflexivity.
  - rewrite <- Hlen at 1. apply substring_append_left.
  - rewrite <- Hlen at 1 2. apply substring_append_right.
Qed.

(** C10: the client nonce is the 32 hexadecimal digits of one UUID4 written
    twice: it has 64 characters and its first 32 characters equal its last 32,
    both being that UUID4's text. *)
Theorem client_nonce_is_uuid_twice (r : Z) :
  String.length (uuid4_hex r) = 32%nat
  /\ client_nonce r = uuid4_hex r +:+ uuid4_hex r
  /\ String.length (client_nonce r) = 64%nat
  /\ substring 0 32 (client_nonce r) = uuid4_hex r
  /\ substring 32 32 (client_nonce r) = uuid4_hex r
  /\ substring 0 32 (client_nonce r) = substring 32 32 (client_nonce r).
Proof.
  destruct (client_nonce_halves r) as (Hlen & Hlen2 & Hl & Hr).
  split; [exact Hlen|]. split; [reflexivity|]. split; [exact Hlen2|].
  split; [exact Hl|]. split; [exact Hr|]. now rewrite Hl, Hr.
Qed.

(** ** Running the stages *)

Lemma sent_app (a b : list event) : sent (a ++ b) = sent a ++ sent b.
Proof. unfold sent. apply flat_map_app. Qed.

Lemma entered_app (a b : list event) : entered (a ++ b) = entered a ++ entered b.
Proof. unfold entered. apply flat_map_app. Qed.

Lemma sent_after_enter (l : list event) (s : stage) : sent (l ++ [Enter s]) = sent l.
Proof. rewrite sent_app. simpl. apply app_nil_r. Qed.

Lemma lookup_secret_insert_eq (sec : gmap string pyval) (key : string) (v : pyval) :
  lookup_secret (<[key := v]> sec) key = Ok v.
Proof. unfold lookup_secret. now rewrite lookup_insert_eq. Qed.

Lemma lookup_secret_insert_ne (sec : gmap string pyval) (key key' : string) (v : pyval) :
  key <> key' -> lookup_secret (<[key := v]> sec) key' = lookup_secret sec key'.
Proof. intros Hne. unfold lookup_secret. now rewrite lookup_insert_ne. Qed.

(** Unfold the operations of the session monad. *)
Ltac run_M :=
  cbv beta iota delta
    [mbind M_bind mret M_ret emit session_request lift reads get_secret
     set_secret with_secrets];
  cbn [rt_password rt_secrets rt_logged_in rt_async_ctxmgr rt_log fst snd].

(** ** The CSRF stage *)

(** C4 fails on the code in this case: when the login page arrives with status
    200 and its text has no match for the token pattern, the stage raises
    [TypeError] instead of returning false. *)
Theorem login_do_csrf_raises_without_tokens (w : world) (st : router)
    (res : response) (body : string) :
  serve w (sent (rt_log st)) (GET "/html/index.html") = Ok res ->
  status res = 200 ->
  text res = Ok body ->
  re_search csrf_pattern body = None ->
  fst (login_do_csrf w st) = Raise TypeError.
Proof.
  intros Hserve Hstatus Htext Hnone. unfold login_do_csrf. run_M.
  rewrite sent_after_enter, Hserve, Htext, Hnone, Hstatus. reflexivity.
Qed.

Lemma login_do_csrf_raises_without_tokens_witness :
  fst (login_do_csrf (device EmptyString (PDict []) (PDict []) 0) (init "test" None))
  = Raise TypeError.
Proof.
  apply (login_do_csrf_raises_without_tokens _ _
           (Response 200 (Ok EmptyString) (Raise ValueError)) EmptyString);
    reflexivity.
Defined.

(** The other half of C4 holds: a status other than 200 makes the stage
    return false, whatever the page text is. *)
Lemma login_do_csrf_false_on_bad_status (w : world) (st : router)
    (res : response) (body : string) :
  serve w (sent (rt_log st)) (GET "/html/index.html") = Ok res ->
  status res <> 200 ->
  text res = Ok body ->
  fst (login_do_csrf w st) = Ok false.
Proof.
  intros Hserve Hstatus Htext. unfold login_do_csrf. run_M.
  rewrite sent_after_enter, Hserve, Htext.
  destruct (Z.eqb_spec (status res) 200); [contradiction|reflexivity].
Qed.

(** ** The nonce stage *)

(** The nonce stage up to its request: the client nonce is stored, and the
    request is answered from the requests sent before. *)
Lemma login_do_nonce_run (w : world) (st : router) (cp ct un : pyval) :
  rt_secrets st !! "csrf_param" = Some cp ->
  rt_secrets st !! "csrf_token" = Some ct ->
  rt_secrets st !! "username" = Some un ->
  let rq := nonce_request cp ct un (urandom16 w) in
  let st1 :=
    Router (rt_password st)
           (<["firstnonce" := PStr (client_nonce (urandom16 w))]> (rt_secrets st))
           (rt_logged_in st) (rt_async_ctxmgr st)
           ((rt_log st ++ [Enter NonceStage]) ++ [Sent rq]) in
  login_do_nonce w st =
  match serve w (sent (rt_log st)) rq with
  | Raise e => (Raise e, st1)
  | Ok res =>
      if status res =? 200 then
        match json res with
        | Raise e => (Raise e, st1)
        | Ok (PDict items) =>
            if truthy (dict_get items "err") then (Ok false, st1)
            else if truthy (dict_get items "errcode") then (Ok false, st1)
            else (Ok true,
                  Router (rt_password st1) (dict_update items (rt_secrets st1))
                         (rt_logged_in st1) (rt_async_ctxmgr st1) (rt_log st1))
        | Ok _ => (Raise AttributeError, st1)
        end
      else (Ok false, st1)
  end.
Proof.
  intros Hp Ht Hu rq st1. unfold login_do_nonce. run_M.
  rewrite !lookup_secret_insert_ne by discriminate.
  rewrite (lookup_secret_Some _ _ _ Hp), (lookup_secret_Some _ _ _ Ht),
    (lookup_secret_Some _ _ _ Hu), lookup_secret_insert_eq.
  rewrite sent_after_enter. fold (nonce_request cp ct un (urandom16 w)). fold rq.
  destruct (serve w (sent (rt_log st)) rq) as [res|e]; [|reflexivity].
  destruct (status res =? 200); [|reflexivity].
  destruct (json res) as [d|e]; [|reflexivity].
  destruct d as [ | | | | |items]; try reflexivity.
  cbn [py_get]. destruct (truthy (dict_get items "err")); [reflexivity|].
  cbn [negb]. destruct (truthy (dict_get items "errcode")); reflexivity.
Qed.

(** C6, as the code has it: the nonce stage returns true exactly when the
    status is 200 and the JSON response is an object whose err and errcode are
    each absent or falsy (the fields salt, iterations and servernonce are not
    looked at); and a response with a truthy err makes it return false
    whatever the status. *)
Theorem login_do_nonce_true_iff (w : world) (st : router) (cp ct un : pyval) :
  rt_secrets st !! "csrf_param" = Some cp ->
  rt_secrets st !! "csrf_token" = Some ct ->
  rt_secrets st !! "username" = Some un ->
  let answer := serve w (sent (rt_log st)) (nonce_request cp ct un (urandom16 w)) in
  (fst (login_do_nonce w st) = Ok true <->
   exists res items,
     answer = Ok res /\ status res = 200 /\ json res = Ok (PDict items)
     /\ truthy (dict_get items "err") = false
     /\ truthy (dict_get items "errcode") = false)
  /\ (forall res items,
        answer = Ok res -> json res = Ok (PDict items) ->
        truthy (dict_get items "err") = true ->
        fst (login_do_nonce w st) = Ok false).
Proof.
  intros Hp Ht Hu answer.
  rewrite (login_do_nonce_run w st cp ct un Hp Ht Hu). fold answer.
  split; [split|].
  - destruct answer as [res|e]; [|discriminate].
    destruct (Z.eqb_spec (status res) 200) as [Hs|Hs]; [|discriminate].
    destruct (json res) as [d|e] eqn:Hj; [|discriminate].
    destruct d as [ | | | | |items]; try discriminate.
    destruct (truthy (dict_get items "err")) eqn:He; [discriminate|].
    destruct (truthy (dict_get items "errcode")) eqn:Hc; [discriminate|].
    intros _. exists res, items. auto.
  - intros (res & items & -> & Hs & Hj & He & Hc).
    rewrite Hs, Hj, He, Hc. reflexivity.
  - intros res items -> Hj He. rewrite Hj, He.
    destruct (status res =? 200); reflexivity.
Qed.

Lemma login_do_nonce_true_iff_witness :
  let w := device page_with_tokens (PDict [("err", PInt 7)]) (PDict []) 0 in
  fst (login_do_nonce w (snd (login_do_csrf w (init "test" None)))) = Ok false.
Proof.
  intros w.
  apply (proj2 (login_do_nonce_true_iff w (snd (login_do_csrf w (init "test" None)))
                  (PStr "0123456789abcdef0123456789abcdef")
                  (PStr "fedcba9876543210fedcba9876543210")
                  (PStr "admin") eq_refl eq_refl eq_refl)
           (Response 200 (Ok EmptyString) (Ok (PDict [("err", PInt 7)])))
           [("err", PInt 7)]);
    reflexivity.
Defined.

(** C6 as stated fails.  A status-200 response [{}] carries none of salt,
    iterations and servernonce, yet the stage returns true and the store has no
    salt afterwards; and a response with the field err = 0 next to the three
    fields lets the whole handshake succeed. *)
Lemma login_do_nonce_true_without_fields :
  (let w := device page_with_tokens (PDict []) (PDict []) 0 in
   let st := snd (login_do_csrf w (init "test" None)) in
   fst (login_do_nonce w st) = Ok true
   /\ rt_secrets (snd (login_do_nonce w st)) !! "salt" = None)
  /\ (let w := device page_with_tokens
                 (PDict [("err", PInt 0); ("salt", PStr "0a0b0c0d");
                         ("iterations", PInt 1); ("servernonce", PStr "bbbb")])
                 (PDict []) 0 in
      fst (handshake w (init "test" None)) = Ok true).
Proof.
  split; [split|]; vm_compute; reflexivity.
Qed.

(** ** What each stage adds to the log *)

Lemma login_do_csrf_log (w : world) (st : router) :
  rt_log (snd (login_do_csrf w st))
  = rt_log st ++ [Enter CsrfStage; Sent (GET "/html/index.html")].
Proof.
  unfold login_do_csrf. run_M. rewrite <- app_assoc. simpl.
  destruct (serve w _ _) as [res|e]; [|reflexivity].
  destruct (text res) as [body|e]; [|reflexivity].
  destruct (status res =? 200); [|reflexivity].
  destruct (re_search csrf_pattern body); reflexivity.
Qed.

Lemma login_do_nonce_log (w : world) (st : router) :
  exists reqs,
    rt_log (snd (login_do_nonce w st)) = rt_log st ++ Enter NonceStage :: map Sent reqs
    /\ posts_to nonce_path reqs.
Proof.
  unfold login_do_nonce. run_M.
  destruct (lookup_secret _ "csrf_param") as [cp|e];
    [|exists []; split; [reflexivity|constructor]].
  destruct (lookup_secret _ "csrf_token") as [ct|e];
    [|exists []; split; [reflexivity|constructor]].
  destruct (lookup_secret _ "username") as [un|e];
    [|exists []; split; [reflexivity|constructor]].
  destruct (lookup_secret _ "firstnonce") as [fn|e];
    [|exists []; split; [reflexivity|constructor]].
  match goal with |- context [serve w ?h ?rq] => exists [rq] end.
  split; [|repeat constructor; eexists; reflexivity].
  rewrite <- app_assoc. simpl.
  destruct (serve w _ _) as [res|e]; [|reflexivity].
  destruct (status res =? 200); [|reflexivity].
  destruct (json res) as [d|e]; [|reflexivity].
  destruct (py_get d "err") as [err|e]; [|reflexivity].
  destruct (negb (truthy err)); [|reflexivity].
  destruct (py_get d "errcode") as [errcode|e]; [|reflexivity].
  destruct (negb (truthy errcode)); [|reflexivity].
  destruct d; reflexivity.
Qed.

Lemma login_do_proof_log (w : world) (st : router) :
  exists reqs,
    rt_log (snd (login_do_proof w st)) = rt_log st ++ Enter ProofStage :: map Sent reqs
    /\ posts_to proof_path reqs.
Proof.
  unfold login_do_proof. run_M.
  destruct (salted_password _ _) as [password|e];
    [|exists []; split; [reflexivity|constructor]].
  destruct (auth_message _) as [authmsg|e];
    [|exists []; split; [reflexivity|constructor]].
  destruct (client_signature _ _) as [clientsig|e];
    [|exists []; split; [reflexivity|constructor]].
  destruct (lookup_secret _ "csrf_param") as [cp|e];
    [|exists []; split; [reflexivity|constructor]].
  destruct (lookup_secret _ "csrf_token") as [ct|e];
    [|exists []; split; [reflexivity|constructor]].
  destruct (lookup_secret _ "servernonce") as [sn|e];
    [|exists []; split; [reflexivity|constructor]].
  match goal with |- context [serve w ?h ?rq] => exists [rq] end.
  split; [|repeat constructor; eexists; reflexivity].
  rewrite <- app_assoc. simpl.
  destruct (serve w _ _) as [res|e]; [|reflexivity].
  destruct (status res =? 200); [|reflexivity].
  destruct (json res) as [d|e]; [|reflexivity].
  destruct (py_get d "err") as [err|e]; [|reflexivity].
  destruct (negb (truthy err)); [|reflexivity].
  destruct (py_get d "errcode") as [errcode|e]; [|reflexivity].
  destruct (negb (truthy errcode)); reflexivity.
Qed.

(** ** The short-circuit chain *)

Lemma entered_map_Sent (l : list request) : entered (map Sent l) = [].
Proof. induction l; auto. Qed.

Lemma sent_map_Sent (l : list request) : sent (map Sent l) = l.
Proof. induction l as [|x l IH]; simpl; [|rewrite <- IH at 2]; reflexivity. Qed.

Lemma handshake_unfold (w : world) (st : router) :
  handshake w st =
  match login_do_csrf w st with
  | (Ok true, st1) =>
      match login_do_nonce w st1 with
      | (Ok true, st2) => login_do_proof w st2
      | (Ok false, st2) => (Ok false, st2)
      | (Raise e, st2) => (Raise e, st2)
      end
  | (Ok false, st1) => (Ok false, st1)
  | (Raise e, st1) => (Raise e, st1)
  end.
Proof.
  unfold handshake. run_M.
  destruct (login_do_csrf w st) as [[[|]|e] st1]; try reflexivity.
  destruct (login_do_nonce w st1) as [[[|]|e] st2]; reflexivity.
Qed.

(** C8: the events a handshake adds to the log.  When the CSRF stage does not
    return true, they are its entry and its GET only, and the handshake does
    not report success; when the CSRF stage returns true and the nonce stage
    does not, they are the entries of these two stages, the GET and POSTs to
    the nonce path only, and the handshake does not report success.  The nonce
    stage is entered only after the CSRF stage returned true, and the proof
    stage only after the nonce stage returned true. *)
Theorem handshake_short_circuits (w : world) (st : router) :
  exists new,
    rt_log (snd (handshake w st)) = rt_log st ++ new
    /\ (fst (login_do_csrf w st) <> Ok true ->
        new = [Enter CsrfStage; Sent (GET "/html/index.html")]
        /\ fst (handshake w st) <> Ok true)
    /\ (forall st1,
          login_do_csrf w st = (Ok true, st1) ->
          fst (login_do_nonce w st1) <> Ok true ->
          entered new = [CsrfStage; NonceStage]
          /\ (exists reqs,
                sent new = GET "/html/index.html" :: reqs /\ posts_to nonce_path reqs)
          /\ fst (handshake w st) <> Ok true)
    /\ (In NonceStage (entered new) -> fst (login_do_csrf w st) = Ok true)
    /\ (In ProofStage (entered new) ->
        exists st1,
          login_do_csrf w st = (Ok true, st1)
          /\ fst (login_do_nonce w st1) = Ok true).
Proof.
  rewrite handshake_unfold.
  pose proof (login_do_csrf_log w st) as Hc.
  destruct (login_do_csrf w st) as [r1 st1] eqn:E1. cbn [fst snd] in *.
  assert (Hstop : forall r : result bool, r <> Ok true ->
            rt_log st1 = rt_log st ++ [Enter CsrfStage; Sent (GET "/html/index.html")] ->
            forall x : result bool * router, snd x = st1 -> fst x = r ->
            exists new,
              rt_log (snd x) = rt_log st ++ new
              /\ (r <> Ok true ->
                  new = [Enter CsrfStage; Sent (GET "/html/index.html")]
                  /\ fst x <> Ok true)
              /\ (forall st1',
                    (r, st1) = (Ok true, st1') ->
                    fst (login_do_nonce w st1') <> Ok true ->
                    entered new = [CsrfStage; NonceStage]
                    /\ (exists reqs,
                          sent new = GET "/html/index.html" :: reqs
                          /\ posts_to nonce_path reqs)
                    /\ fst x <> Ok true)
              /\ (In NonceStage (entered new) -> r = Ok true)
              /\ (In ProofStage (entered new) ->
                  exists st1',
                    (r, st1) = (Ok true, st1')
                    /\ fst (login_do_nonce w st1') = Ok true)).
  { intros r Hr Hlog x Hx Hfx. exists [Enter CsrfStage; Sent (GET "/html/index.html")].
    rewrite Hx. split; [exact Hlog|]. split; [|split; [|split]].
    - intros _. split; [reflexivity|]. now rewrite Hfx.
    - intros st1' [= -> _]. contradiction.
    - simpl. intros [H|[]]. discriminate H.
    - simpl. intros [H|[]]. discriminate H. }
  destruct r1 as [[|]|e].
  2: { apply (Hstop (Ok false)); [discriminate|exact Hc|reflexivity|reflexivity]. }
  2: { apply (Hstop (Raise e)); [discriminate|exact Hc|reflexivity|reflexivity]. }
  clear Hstop.
  destruct (login_do_nonce_log w st1) as (nreqs & Hn & Hnposts).
  destruct (login_do_nonce w st1) as [r2 st2] eqn:E2. cbn [fst snd] in *.
  destruct r2 as [[|]|e].
  - destruct (login_do_proof_log w st2) as (preqs & Hp & Hpposts).
    exists ([Enter CsrfStage; Sent (GET "/html/index.html")]
            ++ (Enter NonceStage :: map Sent nreqs)
            ++ (Enter ProofStage :: map Sent preqs)).
    split; [rewrite Hp, Hn, Hc, <- !app_assoc; reflexivity|].
    split; [intros H; contradiction|].
    split.
    { intros st1' [= <-]. rewrite E2. cbn [fst]. intros H; contradiction. }
    split; [reflexivity|].
    intros _. exists st1. rewrite E2. split; reflexivity.
  - exists ([Enter CsrfStage; Sent (GET "/html/index.html")]
            ++ (Enter NonceStage :: map Sent nreqs)).
    cbn [fst snd].
    split; [rewrite Hn, Hc, <- !app_assoc; reflexivity|].
    split; [intros H; contradiction|].
    split.
    { intros st1' [= <-] _. simpl. rewrite entered_map_Sent, sent_map_Sent.
      split; [reflexivity|]. split; [|discriminate].
      exists nreqs. split; [reflexivity|assumption]. }
    split; [reflexivity|].
    simpl. rewrite entered_map_Sent. simpl. intros [H|[H|[]]]; discriminate H.
  - exists ([Enter CsrfStage; Sent (GET "/html/index.html")]
            ++ (Enter NonceStage :: map Sent nreqs)).
    cbn [fst snd].
    split; [rewrite Hn, Hc, <- !app_assoc; reflexivity|].
    split; [intros H; contradiction|].
    split.
    { intros st1' [= <-] _. simpl. rewrite entered_map_Sent, sent_map_Sent.
      split; [reflexivity|]. split; [|discriminate].
      exists nreqs. split; [reflexivity|assumption]. }
    split; [reflexivity|].
    simpl. rewrite entered_map_Sent. simpl. intros [H|[H|[]]]; discriminate H.
Qed.

Lemma handshake_short_circuits_witness :
  let w := device "no tokens here" (PDict []) (PDict []) 0 in
  rt_log (snd (handshake w (init "test" None)))
  = [Enter CsrfStage; Sent (GET "/html/index.html")].
Proof.
  intros w.
  destruct (handshake_short_circuits w (init "test" None)) as (new & Hlog & Hcsrf & _).
  rewrite Hlog. apply Hcsrf. vm_compute. discriminate.
Defined.

(** ** What the proof stage finds in the store *)

Lemma dict_update_keeps (items : list (string * pyval)) (sec : gmap string pyval)
    (key : string) :
  is_Some (sec !! key) -> is_Some (dict_update items sec !! key).
Proof.
  unfold dict_update. revert sec.
  induction items as [|[k v] items IH]; intros sec Hsome; simpl; [exact Hsome|].
  apply IH. destruct (decide (k = key)) as [->|Hne].
  - rewrite lookup_insert_eq. eauto.
  - rewrite lookup_insert_ne by exact Hne. exact Hsome.
Qed.

Lemma lookup_secret_Ok_inv (sec : gmap string pyval) (key : string) (v : pyval) :
  lookup_secret sec key = Ok v -> sec !! key = Some v.
Proof. unfold lookup_secret. destruct (sec !! key); [now intros [= ->]|discriminate]. Qed.

Lemma lookup_secret_None (sec : gmap string pyval) (key : string) :
  sec !! key = None -> lookup_secret sec key = Raise (KeyError key).
Proof. unfold lookup_secret. now intros ->. Qed.

(** The nonce stage returns true only with the client nonce in the store. *)
Lemma login_do_nonce_true_inv (w : world) (st st2 : router) :
  login_do_nonce w st = (Ok true, st2) ->
  exists items,
    rt_secrets st2
    = dict_update items
        (<["firstnonce" := PStr (client_nonce (urandom16 w))]> (rt_secrets st)).
Proof.
  unfold login_do_nonce. run_M.
  destruct (lookup_secret _ "csrf_param") as [cp|e]; [|discriminate].
  destruct (lookup_secret _ "csrf_token") as [ct|e]; [|discriminate].
  destruct (lookup_secret _ "username") as [un|e]; [|discriminate].
  destruct (lookup_secret _ "firstnonce") as [fn|e]; [|discriminate].
  destruct (serve w _ _) as [res|e]; [|discriminate].
  destruct (status res =? 200); [|discriminate].
  destruct (json res) as [d|e]; [|discriminate].
  destruct (py_get d "err") as [err|e]; [|discriminate].
  destruct (negb (truthy err)); [|discriminate].
  destruct (py_get d "errcode") as [errcode|e]; [|discriminate].
  destruct (negb (truthy errcode)); [|discriminate].
  destruct d as [ | | | | |items]; try discriminate.
  intros [= <-]. exists items. reflexivity.
Qed.

Lemma salted_password_Ok_inv (pw : string) (sec : gmap string pyval) (p : bytes) :
  salted_password pw sec = Ok p ->
  is_Some (sec !! "salt") /\ is_Some (sec !! "iterations").
Proof.
  unfold salted_password.
  destruct (lookup_secret sec "salt") as [sv|e] eqn:Es; [|discriminate].
  result_step. destruct sv; try discriminate.
  destruct (fromhex s) as [salt|e]; [|discriminate].
  destruct (lookup_secret sec "iterations") as [iv|e] eqn:Ei; [|discriminate].
  intros _. apply lookup_secret_Ok_inv in Es, Ei. eauto.
Qed.

Lemma auth_message_Ok_inv (sec : gmap string pyval) (m : string) :
  auth_message sec = Ok m ->
  is_Some (sec !! "firstnonce") /\ is_Some (sec !! "servernonce").
Proof.
  unfold auth_message.
  destruct (lookup_secret sec "firstnonce") as [fv|e] eqn:Ef; [|discriminate].
  destruct (lookup_secret sec "servernonce") as [sv|e] eqn:Es; [|discriminate].
  intros _. apply lookup_secret_Ok_inv in Ef, Es. eauto.
Qed.

(** Without one of the four secrets the proof stage raises before it sends
    anything. *)
Lemma login_do_proof_needs_secrets (w : world) (st : router) (key : string) :
  In key ["salt"; "iterations"; "servernonce"; "firstnonce"]%string ->
  ~ has_secret st key ->
  (exists e, fst (login_do_proof w st) = Raise e)
  /\ rt_log (snd (login_do_proof w st)) = rt_log st ++ [Enter ProofStage].
Proof.
  intros Hkey Hno. unfold login_do_proof. run_M.
  destruct (salted_password _ _) as [password|e] eqn:Ep;
    [|split; [exists e|]; reflexivity].
  destruct (auth_message _) as [authmsg|e] eqn:Ea;
    [|split; [exists e|]; reflexivity].
  exfalso. apply Hno. unfold has_secret.
  destruct (salted_password_Ok_inv _ _ _ Ep) as [Hsalt Hit].
  destruct (auth_message_Ok_inv _ _ Ea) as [Hfn Hsn].
  simpl in Hkey. destruct Hkey as [<-|[<-|[<-|[<-|[]]]]]; assumption.
Qed.

Lemma reaches_proof_intro (w : world) (st : router) :
  fst (login_do_csrf w st) = Ok true ->
  fst (login_do_nonce w (snd (login_do_csrf w st))) = Ok true ->
  reaches_proof w st (snd (login_do_nonce w (snd (login_do_csrf w st)))).
Proof.
  intros Hc Hn. exists (snd (login_do_csrf w st)).
  destruct (login_do_csrf w st) as [r1 st1]. cbn [fst snd] in *.
  destruct (login_do_nonce w st1) as [r2 st2]. cbn [fst snd] in *.
  now subst.
Qed.

(** C5 as stated fails: after a status-200 nonce response [{}] the orchestrator
    invokes the proof stage although salt, iterations and servernonce are
    absent from the store; the stage is entered and raises [KeyError]. *)
Lemma proof_stage_entered_without_salt :
  reaches_proof empty_reply_device fresh (after_nonce empty_reply_device)
  /\ rt_secrets (after_nonce empty_reply_device) !! "salt" = None
  /\ rt_secrets (after_nonce empty_reply_device) !! "iterations" = None
  /\ rt_secrets (after_nonce empty_reply_device) !! "servernonce" = None
  /\ In (Enter ProofStage) (rt_log (snd (handshake empty_reply_device fresh)))
  /\ fst (handshake empty_reply_device fresh) = Raise (KeyError "salt").
Proof.
  split; [apply reaches_proof_intro; vm_compute; reflexivity|].
  repeat split; try (vm_compute; reflexivity).
  vm_compute. tauto.
Qed.

(** ** The randomness of the client nonce *)

Lemma hexval_hexdigit (d : Z) : 0 <= d < 16 -> hexval (hexdigit d) = Some d.
Proof.
  intros Hd.
  assert (Hcases : d = 0 \/ d = 1 \/ d = 2 \/ d = 3 \/ d = 4 \/ d = 5 \/ d = 6
                   \/ d = 7 \/ d = 8 \/ d = 9 \/ d = 10 \/ d = 11 \/ d = 12
                   \/ d = 13 \/ d = 14 \/ d = 15) by lia.
  repeat (destruct Hcases as [->|Hcases]; [reflexivity|]). subst. reflexivity.
Qed.

Lemma nibble_range (x : Z) : 0 <= Z.land x 15 < 16.
Proof.
  change 15 with (Z.ones 4). rewrite Z.land_ones by lia.
  apply Z.mod_pos_bound. reflexivity.
Qed.

Lemma hexdigit_nibble_inj (x y : Z) :
  hexdigit (Z.land x 15) = hexdigit (Z.land y 15) -> Z.land x 15 = Z.land y 15.
Proof.
  intros H. apply (f_equal hexval) in H.
  rewrite !hexval_hexdigit in H by apply nibble_range. now injection H.
Qed.

(** Bit [j] of the nibble at position [k] is bit [4k + j] of the number. *)
Lemma nibble_testbit (n k j : Z) :
  0 <= k -> 0 <= j < 4 ->
  Z.testbit (Z.land (Z.shiftr n (4 * k)) 15) j = Z.testbit n (4 * k + j).
Proof.
  intros Hk Hj. rewrite Z.land_spec, Z.shiftr_spec by lia.
  replace (j + 4 * k) with (4 * k + j) by lia.
  assert (Hbit : Z.testbit 15 j = true).
  { assert (Hc : j = 0 \/ j = 1 \/ j = 2 \/ j = 3) by lia.
    destruct Hc as [->|[->|[->| ->]]]; reflexivity. }
  rewrite Hbit. apply andb_true_r.
Qed.

Lemma nibble_eq_iff (a b k : Z) :
  0 <= k ->
  Z.land (Z.shiftr a (4 * k)) 15 = Z.land (Z.shiftr b (4 * k)) 15
  <-> forall i, 4 * k <= i < 4 * k + 4 -> Z.testbit a i = Z.testbit b i.
Proof.
  intros Hk. split.
  - intros Heq i Hi.
    replace i with (4 * k + (i - 4 * k)) by lia.
    rewrite <- !nibble_testbit by lia. now rewrite Heq.
  - intros Hbits. apply Z.bits_inj'. intros j Hj.
    destruct (Z.lt_ge_cases j 4) as [Hlt|Hge].
    + rewrite !nibble_testbit by lia. apply Hbits. lia.
    + rewrite !Z.land_spec.
      assert (H15 : Z.testbit 15 j = false).
      { apply Z.bits_above_log2; [lia|]. change (Z.log2 15) with 3. lia. }
      now rewrite H15, !andb_false_r.
Qed.

(** Two numbers have the same [k] low nibbles in text exactly when their
    [4k] low bits agree. *)
Lemma hex_nibbles_eq_iff (k : nat) (a b : Z) :
  hex_nibbles k a = hex_nibbles k b
  <-> forall i, 0 <= i < 4 * Z.of_nat k -> Z.testbit a i = Z.testbit b i.
Proof.
  induction k as [|k IH].
  - simpl. split; [intros _ i Hi; lia|reflexivity].
  - cbn [hex_nibbles]. split.
    + intros [= Hd Hrest]. apply hexdigit_nibble_inj in Hd.
      pose proof (proj1 (nibble_eq_iff a b (Z.of_nat k) ltac:(lia)) Hd) as Hnib.
      intros i Hi. destruct (Z.lt_ge_cases i (4 * Z.of_nat k)) as [Hlt|Hge].
      * apply IH; [exact Hrest|lia].
      * apply Hnib. lia.
    + intros Hbits. f_equal.
      * f_equal. apply (proj2 (nibble_eq_iff a b (Z.of_nat k) ltac:(lia))).
        intros i Hi. apply Hbits. lia.
      * apply IH. intros i Hi. apply Hbits. lia.
Qed.

(** The bits of a UUID4: the variant is binary 10, the version is 4, and every
    other bit is the bit of the random draw. *)
Lemma uuid4_int_testbit (r i : Z) :
  0 <= i ->
  Z.testbit (uuid4_int r) i
  = if uuid4_fixed_bit i then (i =? 63) || (i =? 78) else Z.testbit r i.
Proof.
  intros Hi. unfold uuid4_int.
  change (Z.shiftl 0xc000 48) with (Z.lor (2 ^ 62) (2 ^ 63)).
  change (Z.shiftl 0x8000 48) with (2 ^ 63).
  change (Z.shiftl 0xf000 64)
    with (Z.lor (Z.lor (2 ^ 76) (2 ^ 77)) (Z.lor (2 ^ 78) (2 ^ 79))).
  change (Z.shiftl 4 76) with (2 ^ 78).
  repeat first
    [ rewrite Z.lor_spec | rewrite Z.land_spec
    | rewrite Z.lnot_spec by exact Hi | rewrite Z.pow2_bits_eqb by lia ].
  unfold uuid4_fixed_bit.
  rewrite !(Z.eqb_sym _ i).
  destruct (Z.testbit r i);
    destruct (Z.eqb_spec i 62); try (subst; reflexivity);
    destruct (Z.eqb_spec i 63); try (subst; reflexivity);
    destruct (Z.eqb_spec i 76); try (subst; reflexivity);
    destruct (Z.eqb_spec i 77); try (subst; reflexivity);
    destruct (Z.eqb_spec i 78); try (subst; reflexivity);
    destruct (Z.eqb_spec i 79); try (subst; reflexivity);
    destruct (Z.leb_spec 76 i); destruct (Z.leb_spec i 79); try lia; reflexivity.
Qed.

Lemma uuid4_hex_eq_iff (r1 r2 : Z) :
  uuid4_hex r1 = uuid4_hex r2 <-> agree_on_kept_bits r1 r2.
Proof.
  unfold uuid4_hex, agree_on_kept_bits. rewrite hex_nibbles_eq_iff.
  change (4 * Z.of_nat 32) with 128. split.
  - intros Hbits i Hi Hfree. specialize (Hbits i Hi).
    rewrite !uuid4_int_testbit in Hbits by lia. now rewrite Hfree in Hbits.
  - intros Hagree i Hi. rewrite !uuid4_int_testbit by lia.
    destruct (uuid4_fixed_bit i) eqn:Hfixed; [reflexivity|].
    now apply Hagree.
Qed.

(** C7, as the code has it: for draws [r1] and [r2] of 16 random bytes, the
    client nonce is a text of 64 hexadecimal digits, and of the 128 random
    bits exactly the 122 bits that UUID4 does not overwrite determine it: two
    draws give the same nonce if and only if they agree on those 122 bits. *)
Theorem client_nonce_randomness (r1 r2 : Z) :
  0 <= r1 < 2 ^ 128 -> 0 <= r2 < 2 ^ 128 ->
  String.length (client_nonce r1) = 64%nat
  /\ all_hexdigits (client_nonce r1)
  /\ (client_nonce r1 = client_nonce r2 <-> agree_on_kept_bits r1 r2)
  /\ length (filter (fun i => negb (uuid4_fixed_bit i)) (map Z.of_nat (seq 0 128)))
     = 122%nat.
Proof.
  intros _ _.
  destruct (client_nonce_halves r1) as (_ & Hlen & Hl1 & _).
  destruct (client_nonce_halves r2) as (_ & _ & Hl2 & _).
  split; [exact Hlen|]. split.
  { unfold client_nonce. apply all_hexdigits_append; apply hex_nibbles_all_hexdigits. }
  split; [|vm_compute; reflexivity].
  rewrite <- uuid4_hex_eq_iff. split.
  - intros Heq. rewrite <- Hl1, <- Hl2. now rewrite Heq.
  - intros Heq. unfold client_nonce. now rewrite Heq.
Qed.

Lemma client_nonce_randomness_witness :
  client_nonce 1 = client_nonce (2 ^ 62 + 1) <-> agree_on_kept_bits 1 (2 ^ 62 + 1).
Proof.
  refine (proj1 (proj2 (proj2 (client_nonce_randomness 1 (2 ^ 62 + 1) _ _))));
    split; vm_compute; try reflexivity; discriminate.
Defined.

(** C7 as stated fails on the amount of randomness: two different draws of the
    128 random bits give the same client nonce, so the nonce carries fewer
    than 128 bits of them. *)
Lemma client_nonce_collision :
  0 <= 0 < 2 ^ 128 /\ 0 <= 2 ^ 62 < 2 ^ 128 /\ 0 <> 2 ^ 62
  /\ client_nonce 0 = client_nonce (2 ^ 62).
Proof.
  repeat split; try (vm_compute; reflexivity); try discriminate.
Qed.

(** ** An end-to-end run

    The device serves both tokens, answers the nonce request with salt
    0a0b0c0d, 2 iterations and server nonce bbbb, and accepts the proof; the
    random draw is 0.  The proof sent is the one CPython computes for these
    inputs. *)
Example handshake_reference_run :
  let w := device page_with_tokens
             (PDict [("salt", PStr "0a0b0c0d"); ("iterations", PInt 2);
                     ("servernonce", PStr "bbbb")])
             (PDict []) 0 in
  fst (handshake w fresh) = Ok true
  /\ last (sent (rt_log (snd (handshake w fresh))))
     = Some (POST proof_path
               (PDict [("csrf", PDict [("csrf_param", PStr "0123456789abcdef0123456789abcdef");
                                       ("csrf_token", PStr "fedcba9876543210fedcba9876543210")]);
                       ("data", PDict [("clientproof",
                                        PStr "593bb664867a04b0609d6831b247f3b81ade720cf7439d1a2aa4fc0e42bb98c1");
                                       ("finalnonce", PStr "bbbb")])])).
Proof. split; vm_compute; reflexivity. Qed.

(** * Further properties of the code *)

(** ** Bytes of digests and derived keys *)

Lemma land_255_is_byte (x : Z) : is_byte (Z.land x 255).
Proof.
  unfold is_byte. change 255 with (Z.ones 8). rewrite Z.land_ones by lia.
  apply Z.mod_pos_bound. reflexivity.
Qed.

Lemma sha256_is_bytes (msg : bytes) : Forall is_byte (sha256 msg).
Proof.
  unfold sha256, SHA256.digest, SHA256.output, SHA256.bytes_of_word.
  repeat (apply Forall_app; split); repeat constructor; apply land_255_is_byte.
Qed.

Lemma xor_is_byte (a b : Z) : is_byte a -> is_byte b -> is_byte (Z.lxor a b).
Proof.
  unfold is_byte. intros Ha Hb.
  assert (Hla : Z.log2 a <= 7)
    by (change 7 with (Z.log2 255); apply Z.log2_le_mono; lia).
  assert (Hlb : Z.log2 b <= 7)
    by (change 7 with (Z.log2 255); apply Z.log2_le_mono; lia).
  pose proof (Z.log2_lxor a b ltac:(lia) ltac:(lia)) as Hlog.
  assert (Hnn : 0 <= Z.lxor a b) by (apply Z.lxor_nonneg; lia).
  split; [exact Hnn|].
  destruct (Z.eq_dec (Z.lxor a b) 0) as [->|Hne]; [lia|].
  change 256 with (2 ^ 8). apply Z.log2_lt_pow2; lia.
Qed.

Lemma xor_bytes_is_bytes (a b : bytes) :
  Forall is_byte a -> Forall is_byte b -> Forall is_byte (xor_bytes a b).
Proof.
  intros Ha. revert b. induction Ha as [|x a Hx Ha IH]; intros b Hb; [constructor|].
  destruct Hb as [|y b Hy Hb]; [constructor|].
  unfold xor_bytes. simpl. constructor; [now apply xor_is_byte|]. now apply IH.
Qed.

Lemma pbkdf2_block_shape (password salt : bytes) (iterations i : Z) :
  length (pbkdf2_block password salt iterations i) = 32%nat
  /\ Forall is_byte (pbkdf2_block password salt iterations i).
Proof.
  unfold pbkdf2_block.
  set (u1 := hmac_sha256 password (salt ++ SHA256.bytes_of_word i)).
  set (Inv := fun ua : bytes * bytes =>
                (length (fst ua) = 32%nat /\ Forall is_byte (fst ua))
                /\ length (snd ua) = 32%nat /\ Forall is_byte (snd ua)).
  assert (Hdigest : forall k m,
            length (hmac_sha256 k m) = 32%nat /\ Forall is_byte (hmac_sha256 k m)).
  { intros k m. split; [apply hmac_sha256_length|apply sha256_is_bytes]. }
  assert (Hstep : forall ua, Inv ua -> Inv (pbkdf2_step password ua)).
  { intros [u acc] (_ & Hlen & Hbytes). cbn [fst snd] in *.
    unfold pbkdf2_step, Inv. cbn [fst snd].
    destruct (Hdigest password u) as [Hl Hb]. split; [split; assumption|]. split.
    - rewrite xor_bytes_length, Hlen, Hl. reflexivity.
    - now apply xor_bytes_is_bytes. }
  assert (Hinit : Inv (u1, u1)).
  { unfold Inv. cbn [fst snd]. destruct (Hdigest password (salt ++ SHA256.bytes_of_word i)).
    repeat split; assumption. }
  assert (Hall : Inv (Z.iter (iterations - 1) (pbkdf2_step password) (u1, u1))).
  { destruct (iterations - 1) as [|p|p]; simpl; try exact Hinit.
    now apply Pos.iter_invariant. }
  exact (proj2 Hall).
Qed.

(** X1: whenever the proof stage obtains a salted password, it is 32 bytes
    long and every element is a byte, whatever the salt and the iteration
    count are. *)
Theorem salted_password_shape (pw : string) (sec : gmap string pyval) (p : bytes) :
  salted_password pw sec = Ok p -> length p = 32%nat /\ Forall is_byte p.
Proof.
  unfold salted_password, pbkdf2_hmac.
  destruct (lookup_secret sec "salt") as [sv|e]; [|discriminate].
  result_step. destruct sv as [ | | |salt_hex| | ]; try discriminate.
  destruct (fromhex salt_hex) as [salt|e]; [|discriminate].
  destruct (lookup_secret sec "iterations") as [iv|e]; [|discriminate].
  result_step. destruct (py_iterations iv) as [n|e]; [|discriminate].
  intros [= <-]. unfold pbkdf2_sha256. simpl Nat.div. cbn [pbkdf2_blocks].
  rewrite app_nil_r.
  destruct (pbkdf2_block_shape (encode_utf8 pw) salt n 1) as [Hlen Hbytes].
  rewrite firstn_all2 by (rewrite Hlen; lia). split; assumption.
Qed.

Lemma salted_password_shape_witness :
  length (pbkdf2_sha256 (encode_utf8 "test") [10; 11; 12; 13] 1 32) = 32%nat.
Proof.
  refine (proj1 (salted_password_shape "test"
            (<["salt" := PStr "0a0b0c0d"]> (<["iterations" := PInt 1]> ∅)) _ _)).
  reflexivity.
Defined.

(** ** Hexadecimal text read back *)

Lemma hexdigit_not_space (d : Z) : is_space (hexdigit d) = false.
Proof.
  destruct d as [|p|p]; try reflexivity.
  do 5 (try (destruct p as [p|p|]; try reflexivity)).
Qed.

Lemma byte_nibbles (b : Z) :
  is_byte b -> 16 * Z.land (Z.shiftr b 4) 15 + Z.land b 15 = b.
Proof.
  unfold is_byte. intros Hb.
  change 15 with (Z.ones 4). rewrite !Z.land_ones by lia.
  rewrite Z.shiftr_div_pow2 by lia. change (2 ^ 4) with 16.
  rewrite (Z.mod_small (b / 16)).
  - symmetry. apply Z.div_mod. lia.
  - split; [apply Z.div_pos; lia|apply Z.div_lt_upper_bound; lia].
Qed.

Lemma fromhex_hex_bytes (l : bytes) : Forall is_byte l -> fromhex (hex l) = Ok l.
Proof.
  induction 1 as [|b l Hb Hl IH]; [reflexivity|].
  cbn [hex fromhex]. rewrite hexdigit_not_space.
  rewrite !hexval_hexdigit by apply nibble_range.
  rewrite IH. result_step. now rewrite byte_nibbles.
Qed.

(** X2: [bytes.fromhex] reads back what [bytes.hex] wrote: decoding the
    hexadecimal text of a byte string gives that byte string, and the text
    has two lower-case hexadecimal digits per byte. *)
Theorem fromhex_hex (l : bytes) :
  Forall is_byte l ->
  fromhex (hex l) = Ok l
  /\ String.length (hex l) = (2 * length l)%nat
  /\ all_hexdigits (hex l).
Proof.
  intros Hl. split; [now apply fromhex_hex_bytes|].
  split; [apply hex_length|apply hex_all_hexdigits].
Qed.

Lemma fromhex_hex_witness : fromhex (hex [0; 171; 255]) = Ok [0; 171; 255].
Proof.
  apply fromhex_hex. repeat constructor; unfold is_byte; lia.
Defined.

Lemma xor_bytes_cancel (a b : bytes) :
  (length a <= length b)%nat -> xor_bytes (xor_bytes a b) b = a.
Proof.
  revert b. induction a as [|x a IH]; intros [|y b] Hlen; simpl in Hlen;
    try reflexivity; try lia.
  unfold xor_bytes in *. simpl. f_equal.
  - rewrite Z.lxor_assoc, Z.lxor_nilpotent. apply Z.lxor_0_r.
  - apply IH. lia.
Qed.

(** X3: the client proof gives the client key back to whoever knows the
    client signature: decoding the proof text and XORing it with the signature
    is the client key. *)
Theorem client_proof_recovers_client_key (password : bytes) (authmsg : string)
    (clientsig : bytes) :
  client_signature authmsg (stored_key (client_key password)) = Ok clientsig ->
  (fun p => xor_bytes p clientsig)
    <$> fromhex (client_proof (client_key password) clientsig)
  = Ok (client_key password).
Proof.
  intros Hsig. unfold client_proof.
  assert (Hs : length clientsig = 32%nat) by exact (client_signature_length _ _ _ Hsig).
  assert (Hsb : Forall is_byte clientsig).
  { unfold client_signature in Hsig.
    destruct (encode_ascii authmsg); [|discriminate].
    injection Hsig as <-. apply sha256_is_bytes. }
  rewrite fromhex_hex_bytes.
  - cbn [fmap result_fmap]. f_equal. apply xor_bytes_cancel.
    rewrite client_key_length, Hs. lia.
  - apply xor_bytes_is_bytes; [apply sha256_is_bytes|exact Hsb].
Qed.

Lemma client_proof_recovers_client_key_witness :
  let clientsig := hmac_sha256 (latin1 "a,b,b") (stored_key (client_key [1; 2; 3])) in
  (fun p => xor_bytes p clientsig)
    <$> fromhex (client_proof (client_key [1; 2; 3]) clientsig)
  = Ok (client_key [1; 2; 3]).
Proof.
  intros clientsig.
  apply (client_proof_recovers_client_key [1; 2; 3] "a,b,b" clientsig).
  reflexivity.
Defined.

(** ** The proof stage *)

Lemma encode_ascii_Ok (s : string) : ascii_only s -> encode_ascii s = Ok (latin1 s).
Proof.
  unfold ascii_only, latin1. induction s as [|c s IH]; simpl; [reflexivity|].
  intros Hall. inversion Hall as [|? ? Hc Hs]; subst.
  destruct (Z.ltb_spec (ord c) 128); [|lia]. rewrite IH by exact Hs. reflexivity.
Qed.

Lemma encode_ascii_Raise (s : string) :
  ~ ascii_only s -> encode_ascii s = Raise UnicodeEncodeError.
Proof.
  unfold ascii_only. induction s as [|c s IH]; simpl; intros Hnot.
  - destruct Hnot. constructor.
  - destruct (Z.ltb_spec (ord c) 128) as [Hlt|Hge]; [|reflexivity].
    rewrite IH; [reflexivity|]. intros Hs. apply Hnot. now constructor.
Qed.

(** The proof stage from its entry to the end, when the store holds what the
    proof needs. *)
Lemma login_do_proof_run (w : world) (st : router) (p : bytes) (m : string)
    (cs : bytes) (cp ct sn : pyval) :
  salted_password (rt_password st) (rt_secrets st) = Ok p ->
  auth_message (rt_secrets st) = Ok m ->
  client_signature m (stored_key (client_key p)) = Ok cs ->
  rt_secrets st !! "csrf_param" = Some cp ->
  rt_secrets st !! "csrf_token" = Some ct ->
  rt_secrets st !! "servernonce" = Some sn ->
  let rq := proof_request cp ct (client_proof (client_key p) cs) sn in
  let st1 :=
    Router (rt_password st) (rt_secrets st) (rt_logged_in st) (rt_async_ctxmgr st)
           ((rt_log st ++ [Enter ProofStage]) ++ [Sent rq]) in
  login_do_proof w st =
  match serve w (sent (rt_log st)) rq with
  | Raise e => (Raise e, st1)
  | Ok res =>
      if status res =? 200 then
        match json res with
        | Raise e => (Raise e, st1)
        | Ok (PDict items) =>
            if truthy (dict_get items "err") then (Ok false, st1)
            else if truthy (dict_get items "errcode") then (Ok false, st1)
            else (Ok true, st1)
        | Ok _ => (Raise AttributeError, st1)
        end
      else (Ok false, st1)
  end.
Proof.
  intros Hp Hm Hcs Hcp Hct Hsn rq st1. unfold login_do_proof. run_M.
  rewrite Hp, Hm, Hcs.
  rewrite (lookup_secret_Some _ _ _ Hcp), (lookup_secret_Some _ _ _ Hct),
    (lookup_secret_Some _ _ _ Hsn).
  rewrite sent_after_enter.
  fold (proof_request cp ct (client_proof (client_key p) cs) sn). fold rq.
  destruct (serve w (sent (rt_log st)) rq) as [res|e]; [|reflexivity].
  destruct (status res =? 200); [|reflexivity].
  destruct (json res) as [d|e]; [|reflexivity].
  destruct d as [ | | | | |items]; try reflexivity.
  cbn [py_get]. destruct (truthy (dict_get items "err")); [reflexivity|].
  cbn [negb]. destruct (truthy (dict_get items "errcode")); reflexivity.
Qed.

(** X4: with the store filled, the proof stage sends one request, a POST to
    the proof path carrying the CSRF pair, the client proof and the server
    nonce as finalnonce; it returns true exactly when the answer has status
    200 and a JSON object whose err and errcode are absent or falsy. *)
Theorem login_do_proof_true_iff (w : world) (st : router) (p : bytes) (m : string)
    (cs : bytes) (cp ct sn : pyval) :
  salted_password (rt_password st) (rt_secrets st) = Ok p ->
  auth_message (rt_secrets st) = Ok m ->
  client_signature m (stored_key (client_key p)) = Ok cs ->
  rt_secrets st !! "csrf_param" = Some cp ->
  rt_secrets st !! "csrf_token" = Some ct ->
  rt_secrets st !! "servernonce" = Some sn ->
  let rq := proof_request cp ct (client_proof (client_key p) cs) sn in
  rt_log (snd (login_do_proof w st)) = rt_log st ++ [Enter ProofStage; Sent rq]
  /\ (fst (login_do_proof w st) = Ok true <->
      exists res items,
        serve w (sent (rt_log st)) rq = Ok res /\ status res = 200
        /\ json res = Ok (PDict items)
        /\ truthy (dict_get items "err") = false
        /\ truthy (dict_get items "errcode") = false).
Proof.
  intros Hp Hm Hcs Hcp Hct Hsn rq.
  rewrite (login_do_proof_run w st p m cs cp ct sn Hp Hm Hcs Hcp Hct Hsn). fold rq.
  destruct (serve w (sent (rt_log st)) rq) as [res|e].
  2: { cbn [fst snd rt_log]. rewrite <- app_assoc. split; [reflexivity|].
       split; [discriminate|]. intros (res & items & Hs & _). discriminate Hs. }
  assert (Hlog : forall r : result bool,
            rt_log (snd (r, Router (rt_password st) (rt_secrets st) (rt_logged_in st)
                              (rt_async_ctxmgr st)
                              ((rt_log st ++ [Enter ProofStage]) ++ [Sent rq])))
            = rt_log st ++ [Enter ProofStage; Sent rq]).
  { intros r. cbn [snd rt_log]. now rewrite <- app_assoc. }
  destruct (Z.eqb_spec (status res) 200) as [Hs|Hs].
  2: { split; [apply Hlog|]. split; [discriminate|].
       intros (res' & items & [= <-] & Hs' & _). contradiction. }
  destruct (json res) as [d|e] eqn:Hj.
  2: { split; [apply Hlog|]. split; [discriminate|].
       intros (res' & items & [= <-] & _ & Hj' & _). congruence. }
  destruct d as [ | | | | |items];
    try (split; [apply Hlog|]; split; [discriminate|];
         intros (res' & items' & [= <-] & _ & Hj' & _); congruence).
  destruct (truthy (dict_get items "err")) eqn:He.
  { split; [apply Hlog|]. split; [discriminate|].
    intros (res' & items' & [= <-] & _ & Hj' & He' & _). congruence. }
  destruct (truthy (dict_get items "errcode")) eqn:Hc.
  { split; [apply Hlog|]. split; [discriminate|].
    intros (res' & items' & [= <-] & _ & Hj' & _ & Hc'). congruence. }
  split; [apply Hlog|]. split; [|reflexivity].
  intros _. exists res, items. auto.
Qed.

Lemma login_do_proof_true_iff_witness :
  fst (login_do_proof full_reply_device (after_nonce full_reply_device)) = Ok true.
Proof.
  refine (proj2 (proj2 (login_do_proof_true_iff
            full_reply_device (after_nonce full_reply_device)
            (pbkdf2_sha256 (encode_utf8 "test") [10; 11; 12; 13] 1 32)
            (client_nonce 0 +:+ ",bbbb,bbbb")
            (hmac_sha256 (latin1 (client_nonce 0 +:+ ",bbbb,bbbb"))
               (stored_key (client_key
                  (pbkdf2_sha256 (encode_utf8 "test") [10; 11; 12; 13] 1 32))))
            (PStr "0123456789abcdef0123456789abcdef")
            (PStr "fedcba9876543210fedcba9876543210")
            (PStr "bbbb") _ _ _ _ _ _)) _);
    try (vm_compute; reflexivity).
  exists (Response 200 (Ok EmptyString) (Ok (PDict []))), [].
  repeat split; vm_compute; reflexivity.
Defined.

Lemma ascii_only_forallb (s : string) :
  ascii_only s -> forallb (fun c => ord c <? 128) (list_ascii_of_string s) = true.
Proof.
  unfold ascii_only. induction 1 as [|c l Hc Hl IH]; [reflexivity|].
  simpl. rewrite IH. destruct (Z.ltb_spec (ord c) 128); [reflexivity|lia].
Qed.

(** X6: when the authentication message has a character that ASCII cannot
    encode (for instance in the server nonce), the proof stage raises
    [UnicodeEncodeError] right after it is entered and sends nothing. *)
Theorem login_do_proof_non_ascii (w : world) (st : router) (p : bytes) (m : string) :
  salted_password (rt_password st) (rt_secrets st) = Ok p ->
  auth_message (rt_secrets st) = Ok m ->
  ~ ascii_only m ->
  login_do_proof w st
  = (Raise UnicodeEncodeError,
     Router (rt_password st) (rt_secrets st) (rt_logged_in st) (rt_async_ctxmgr st)
            (rt_log st ++ [Enter ProofStage])).
Proof.
  intros Hp Hm Hnot. unfold login_do_proof. run_M. rewrite Hp, Hm.
  unfold client_signature. rewrite (encode_ascii_Raise m Hnot). reflexivity.
Qed.

Lemma login_do_proof_non_ascii_witness :
  let w := device page_with_tokens
             (PDict [("salt", PStr "0a0b0c0d"); ("iterations", PInt 1);
                     ("servernonce", PStr (String (ascii_of_nat 233) EmptyString))])
             (PDict []) 0 in
  fst (login_do_proof w (after_nonce w)) = Raise UnicodeEncodeError.
Proof.
  intros w.
  rewrite (login_do_proof_non_ascii w (after_nonce w)
             (pbkdf2_sha256 (encode_utf8 "test") [10; 11; 12; 13] 1 32)
             (client_nonce 0 +:+ "," +:+ String (ascii_of_nat 233) EmptyString
                +:+ "," +:+ String (ascii_of_nat 233) EmptyString)).
  - reflexivity.
  - vm_compute. reflexivity.
  - vm_compute. reflexivity.
  - intros Hall. apply ascii_only_forallb in Hall. vm_compute in Hall.
    discriminate Hall.
Defined.

(** ** The token pattern *)

Lemma strip_literal_Some (l s s' : string) :
  strip_literal l s = Some s' -> s = l +:+ s'.
Proof.
  revert s. induction l as [|a l IH]; intros s; simpl.
  - now intros [= ->].
  - destruct s as [|b s]; [discriminate|].
    destruct (Ascii.eqb_spec a b) as [->|]; [|discriminate].
    intros H. now rewrite (IH _ H).
Qed.

Lemma strip_literal_append (l s : string) : strip_literal l (l +:+ s) = Some s.
Proof.
  induction l as [|a l IH]; simpl; [reflexivity|]. now rewrite Ascii.eqb_refl.
Qed.

Lemma take_words_Some (n : nat) (s g rest : string) :
  take_words n s = Some (g, rest) ->
  s = g +:+ rest /\ String.length g = n
  /\ Forall (fun c => is_word c = true) (list_ascii_of_string g).
Proof.
  revert s g rest. induction n as [|n IH]; intros s g rest; simpl.
  - intros [= <- <-]. repeat split. constructor.
  - destruct s as [|c s]; [discriminate|].
    destruct (is_word c) eqn:Hc; [|discriminate].
    destruct (take_words n s) as [[g' rest']|] eqn:Ht; [|discriminate].
    intros [= <- <-]. destruct (IH _ _ _ Ht) as (-> & <- & Hall).
    repeat split. simpl. now constructor.
Qed.

Lemma take_words_append (g rest : string) :
  Forall (fun c => is_word c = true) (list_ascii_of_string g) ->
  take_words (String.length g) (g +:+ rest) = Some (g, rest).
Proof.
  induction g as [|c g IH]; simpl; [reflexivity|].
  intros Hall. inversion Hall as [|? ? Hc Hg]; subst.
  rewrite Hc, IH by exact Hg. reflexivity.
Qed.

(** A lazy run gives up characters one at a time until the rest matches. *)
Lemma match_here_lazy_unfold (pat : list re_item) (s : string) :
  match_here (LazyAny :: pat) s
  = match match_here pat s with
    | Some gs => Some gs
    | None =>
        match s with
        | EmptyString => None
        | String _ s' => match_here (LazyAny :: pat) s'
        end
    end.
Proof. destruct s; reflexivity. Qed.

Lemma re_search_unfold (pat : list re_item) (s : string) :
  re_search pat s
  = match match_here pat s with
    | Some gs => Some gs
    | None =>
        match s with
        | EmptyString => None
        | String _ s' => re_search pat s'
        end
    end.
Proof. destruct s; reflexivity. Qed.

Lemma match_here_lazy_Some (pat : list re_item) (s : string) (gs : list string) :
  match_here (LazyAny :: pat) s = Some gs ->
  exists skipped s', s = skipped +:+ s' /\ match_here pat s' = Some gs.
Proof.
  induction s as [|c s IH]; rewrite match_here_lazy_unfold.
  - destruct (match_here pat EmptyString) as [gs'|] eqn:Hm; [|discriminate].
    intros [= <-]. exists EmptyString, EmptyString. auto.
  - destruct (match_here pat (String c s)) as [gs'|] eqn:Hm.
    + intros [= <-]. exists EmptyString, (String c s). auto.
    + intros H. destruct (IH H) as (skipped & s' & -> & Hs').
      exists (String c skipped), s'. auto.
Qed.

Lemma match_here_lazy_append (pat : list re_item) (skipped s : string) :
  is_Some (match_here pat s) ->
  is_Some (match_here (LazyAny :: pat) (skipped +:+ s)).
Proof.
  intros [gs Hgs]. induction skipped as [|c skipped IH];
    rewrite match_here_lazy_unfold.
  - change (EmptyString +:+ s) with s. rewrite Hgs. eauto.
  - change (String c skipped +:+ s) with (String c (skipped +:+ s)).
    destruct (match_here pat (String c (skipped +:+ s))); eauto.
Qed.

Lemma re_search_Some (pat : list re_item) (s : string) (gs : list string) :
  re_search pat s = Some gs ->
  exists before s', s = before +:+ s' /\ match_here pat s' = Some gs.
Proof.
  induction s as [|c s IH]; rewrite re_search_unfold.
  - destruct (match_here pat EmptyString) eqn:Hm; [|discriminate].
    intros [= <-]. exists EmptyString, EmptyString. auto.
  - destruct (match_here pat (String c s)) eqn:Hm.
    + intros [= <-]. exists EmptyString, (String c s). auto.
    + intros H. destruct (IH H) as (before & s' & -> & Hs').
      exists (String c before), s'. auto.
Qed.

Lemma re_search_append (pat : list re_item) (before s : string) :
  is_Some (match_here pat s) -> is_Some (re_search pat (before +:+ s)).
Proof.
  intros [gs Hgs]. induction before as [|c before IH]; rewrite re_search_unfold.
  - change (EmptyString +:+ s) with s. rewrite Hgs. eauto.
  - change (String c before +:+ s) with (String c (before +:+ s)).
    destruct (match_here pat (String c (before +:+ s))); eauto.
Qed.

Lemma match_here_lit (l : string) (pat : list re_item) (s : string) :
  match_here (Lit l :: pat) s
  = match strip_literal l s with
    | Some s' => match_here pat s'
    | None => None
    end.
Proof. reflexivity. Qed.

Lemma match_here_group (n : nat) (pat : list re_item) (s : string) :
  match_here (WordGroup n :: pat) s
  = match take_words n s with
    | Some (g, s') =>
        match match_here pat s' with
        | Some gs => Some (g :: gs)
        | None => None
        end
    | None => None
    end.
Proof. reflexivity. Qed.

Lemma csrf_pattern_sound (body : string) (gs : list string) :
  re_search csrf_pattern body = Some gs ->
  exists g1 g2 a b c d e,
    gs = [g1; g2] /\ is_token g1 /\ is_token g2
    /\ body = a +:+ "csrf_param" +:+ b +:+ g1 +:+ c +:+ "csrf_token" +:+ d
                +:+ g2 +:+ e.
Proof.
  intros Hsearch. unfold csrf_pattern in Hsearch.
  destruct (re_search_Some _ _ _ Hsearch) as (a & s1 & -> & H1).
  rewrite match_here_lit in H1.
  destruct (strip_literal "csrf_param" s1) as [s2|] eqn:Hl1; [|discriminate].
  apply strip_literal_Some in Hl1. subst s1.
  destruct (match_here_lazy_Some _ _ _ H1) as (b & s3 & -> & H3).
  rewrite match_here_group in H3.
  destruct (take_words 32 s3) as [[g1 s4]|] eqn:Ht1; [|discriminate].
  destruct (take_words_Some _ _ _ _ Ht1) as (-> & Hlen1 & Hw1).
  destruct (match_here _ s4) as [gs'|] eqn:H4; [|discriminate].
  injection H3 as <-.
  destruct (match_here_lazy_Some _ _ _ H4) as (c & s5 & -> & H5).
  rewrite match_here_lit in H5.
  destruct (strip_literal "csrf_token" s5) as [s6|] eqn:Hl2; [|discriminate].
  apply strip_literal_Some in Hl2. subst s5.
  destruct (match_here_lazy_Some _ _ _ H5) as (d & s7 & -> & H7).
  rewrite match_here_group in H7.
  destruct (take_words 32 s7) as [[g2 e]|] eqn:Ht2; [|discriminate].
  destruct (take_words_Some _ _ _ _ Ht2) as (-> & Hlen2 & Hw2).
  change (match_here [] e) with (Some (@nil string)) in H7.
  injection H7 as <-.
  exists g1, g2, a, b, c, d, e. unfold is_token. auto.
Qed.

Lemma csrf_pattern_complete (g1 g2 a b c d e : string) :
  is_token g1 -> is_token g2 ->
  is_Some (re_search csrf_pattern
             (a +:+ "csrf_param" +:+ b +:+ g1 +:+ c +:+ "csrf_token" +:+ d
                +:+ g2 +:+ e)).
Proof.
  intros [Hlen1 Hw1] [Hlen2 Hw2]. unfold csrf_pattern.
  apply re_search_append. rewrite match_here_lit, strip_literal_append.
  apply match_here_lazy_append. rewrite match_here_group.
  rewrite <- Hlen1, take_words_append by exact Hw1.
  assert (Hrest : is_Some (match_here [LazyAny; Lit "csrf_token"; LazyAny; WordGroup 32]
                             (c +:+ "csrf_token" +:+ d +:+ g2 +:+ e))).
  { apply match_here_lazy_append. rewrite match_here_lit, strip_literal_append.
    apply match_here_lazy_append. rewrite match_here_group.
    rewrite <- Hlen2, take_words_append by exact Hw2.
    change (match_here [] e) with (Some (@nil string)). eauto. }
  rewrite Hlen1. destruct Hrest as [gs' ->]. eauto.
Qed.

(** X7: the search for the token pattern succeeds exactly on a text in which
    the marker csrf_param, a run of 32 word characters, the marker csrf_token
    and another run of 32 word characters follow one another in this order
    (anything in between); the two groups it returns are such runs, placed
    this way in the text. *)
Theorem csrf_pattern_search (body : string) :
  (forall gs,
     re_search csrf_pattern body = Some gs ->
     exists g1 g2 a b c d e,
       gs = [g1; g2] /\ is_token g1 /\ is_token g2
       /\ body = a +:+ "csrf_param" +:+ b +:+ g1 +:+ c +:+ "csrf_token" +:+ d
                   +:+ g2 +:+ e)
  /\ (forall g1 g2 a b c d e,
        is_token g1 -> is_token g2 ->
        body = a +:+ "csrf_param" +:+ b +:+ g1 +:+ c +:+ "csrf_token" +:+ d
                 +:+ g2 +:+ e ->
        is_Some (re_search csrf_pattern body)).
Proof.
  split.
  - apply csrf_pattern_sound.
  - intros g1 g2 a b c d e Ht1 Ht2 ->. now apply csrf_pattern_complete.
Qed.

Lemma csrf_pattern_search_witness :
  is_Some (re_search csrf_pattern page_with_tokens).
Proof.
  refine (proj2 (csrf_pattern_search page_with_tokens)
            "0123456789abcdef0123456789abcdef" "fedcba9876543210fedcba9876543210"
            "<meta name=" " content=" "><meta name=" " content=" ">" _ _ _).
  - split; [reflexivity|]. repeat constructor.
  - split; [reflexivity|]. repeat constructor.
  - reflexivity.
Defined.

(** ** What the stages do to the object *)

Lemma dict_update_snoc (items : list (string * pyval)) (k : string) (v : pyval)
    (sec : gmap string pyval) :
  dict_update (items ++ [(k, v)]) sec = <[k := v]> (dict_update items sec).
Proof. unfold dict_update. now rewrite foldl_app. Qed.

(** After [dict.update], a key holds the value the update has for it, and
    otherwise the value it held before. *)
Lemma dict_update_lookup (items : list (string * pyval)) (sec : gmap string pyval)
    (key : string) :
  dict_update items sec !! key
  = match dict_update items ∅ !! key with
    | Some v => Some v
    | None => sec !! key
    end.
Proof.
  induction items as [|[k v] items IH] using rev_ind.
  - simpl. now rewrite lookup_empty.
  - rewrite !dict_update_snoc. destruct (decide (k = key)) as [->|Hne].
    + now rewrite !lookup_insert_eq.
    + rewrite !lookup_insert_ne by exact Hne. exact IH.
Qed.

Lemma login_do_csrf_frame (w : world) (st : router) :
  same_identity st (snd (login_do_csrf w st)).
Proof.
  unfold same_identity, login_do_csrf. run_M.
  destruct (serve w _ _) as [res|e]; [|auto].
  destruct (text res) as [body|e]; [|auto].
  destruct (status res =? 200); [|auto].
  destruct (re_search csrf_pattern body); auto.
Qed.

Lemma login_do_nonce_frame (w : world) (st : router) :
  same_identity st (snd (login_do_nonce w st)).
Proof.
  unfold same_identity, login_do_nonce. run_M.
  destruct (lookup_secret _ "csrf_param") as [cp|e]; [|auto].
  destruct (lookup_secret _ "csrf_token") as [ct|e]; [|auto].
  destruct (lookup_secret _ "username") as [un|e]; [|auto].
  destruct (lookup_secret _ "firstnonce") as [fn|e]; [|auto].
  destruct (serve w _ _) as [res|e]; [|auto].
  destruct (status res =? 200); [|auto].
  destruct (json res) as [d|e]; [|auto].
  destruct (py_get d "err") as [err|e]; [|auto].
  destruct (negb (truthy err)); [|auto].
  destruct (py_get d "errcode") as [errcode|e]; [|auto].
  destruct (negb (truthy errcode)); [|auto].
  destruct d; auto.
Qed.

Lemma login_do_proof_frame (w : world) (st : router) :
  same_identity st (snd (login_do_proof w st))
  /\ rt_secrets (snd (login_do_proof w st)) = rt_secrets st.
Proof.
  unfold same_identity, login_do_proof. run_M.
  destruct (salted_password _ _) as [password|e]; [|auto].
  destruct (auth_message _) as [authmsg|e]; [|auto].
  destruct (client_signature _ _) as [clientsig|e]; [|auto].
  destruct (lookup_secret _ "csrf_param") as [cp|e]; [|auto].
  destruct (lookup_secret _ "csrf_token") as [ct|e]; [|auto].
  destruct (lookup_secret _ "servernonce") as [sn|e]; [|auto].
  destruct (serve w _ _) as [res|e]; [|auto].
  destruct (status res =? 200); [|auto].
  destruct (json res) as [d|e]; [|auto].
  destruct (py_get d "err") as [err|e]; [|auto].
  destruct (negb (truthy err)); [|auto].
  destruct (py_get d "errcode") as [errcode|e]; [|auto].
  destruct (negb (truthy errcode)); auto.
Qed.

Lemma same_identity_trans (a b c : router) :
  same_identity a b -> same_identity b c -> same_identity a c.
Proof. unfold same_identity. intros (-> & -> & ->) (-> & -> & ->). auto. Qed.

Lemma handshake_frame (w : world) (st : router) :
  same_identity st (snd (handshake w st)).
Proof.
  rewrite handshake_unfold.
  pose proof (login_do_csrf_frame w st) as Hc.
  destruct (login_do_csrf w st) as [[[|]|e] st1]; cbn [snd] in *; try exact Hc.
  pose proof (login_do_nonce_frame w st1) as Hn.
  destruct (login_do_nonce w st1) as [[[|]|e] st2]; cbn [snd] in *;
    try exact (same_identity_trans _ _ _ Hc Hn).
  exact (same_identity_trans _ _ _ (same_identity_trans _ _ _ Hc Hn)
           (proj1 (login_do_proof_frame w st2))).
Qed.



(** ** The requests of a handshake *)

Lemma login_do_nonce_sends (w : world) (st : router) :
  ((exists e, fst (login_do_nonce w st) = Raise e)
   /\ rt_log (snd (login_do_nonce w st)) = rt_log st ++ [Enter NonceStage])
  \/ exists body,
       rt_log (snd (login_do_nonce w st))
       = rt_log st ++ [Enter NonceStage; Sent (POST nonce_path body)].
Proof.
  unfold login_do_nonce. run_M.
  destruct (lookup_secret _ "csrf_param") as [cp|e]; [|left; eauto].
  destruct (lookup_secret _ "csrf_token") as [ct|e]; [|left; eauto].
  destruct (lookup_secret _ "username") as [un|e]; [|left; eauto].
  destruct (lookup_secret _ "firstnonce") as [fn|e]; [|left; eauto].
  right. eexists. rewrite <- app_assoc. cbn [app].
  destruct (serve w _ _) as [res|e]; [|reflexivity].
  destruct (status res =? 200); [|reflexivity].
  destruct (json res) as [d|e]; [|reflexivity].
  destruct (py_get d "err") as [err|e]; [|reflexivity].
  destruct (negb (truthy err)); [|reflexivity].
  destruct (py_get d "errcode") as [errcode|e]; [|reflexivity].
  destruct (negb (truthy errcode)); [|reflexivity].
  destruct d; reflexivity.
Qed.

Lemma login_do_proof_sends (w : world) (st : router) :
  ((exists e, fst (login_do_proof w st) = Raise e)
   /\ rt_log (snd (login_do_proof w st)) = rt_log st ++ [Enter ProofStage])
  \/ exists body,
       rt_log (snd (login_do_proof w st))
       = rt_log st ++ [Enter ProofStage; Sent (POST proof_path body)].
Proof.
  unfold login_do_proof. run_M.
  destruct (salted_password _ _) as [password|e]; [|left; eauto].
  destruct (auth_message _) as [authmsg|e]; [|left; eauto].
  destruct (client_signature _ _) as [clientsig|e]; [|left; eauto].
  destruct (lookup_secret _ "csrf_param") as [cp|e]; [|left; eauto].
  destruct (lookup_secret _ "csrf_token") as [ct|e]; [|left; eauto].
  destruct (lookup_secret _ "servernonce") as [sn|e]; [|left; eauto].
  right. eexists. rewrite <- app_assoc. cbn [app].
  destruct (serve w _ _) as [res|e]; [|reflexivity].
  destruct (status res =? 200); [|reflexivity].
  destruct (json res) as [d|e]; [|reflexivity].
  destruct (py_get d "err") as [err|e]; [|reflexivity].
  destruct (negb (truthy err)); [|reflexivity].
  destruct (py_get d "errcode") as [errcode|e]; [|reflexivity].
  destruct (negb (truthy errcode)); reflexivity.
Qed.

(** The requests a handshake sends, with its outcome. *)
Lemma handshake_sent (w : world) (st : router) :
  exists new,
    rt_log (snd (handshake w st)) = rt_log st ++ new
    /\ ((sent new = [index_request] /\ fst (handshake w st) <> Ok true)
        \/ (exists b1,
              sent new = [index_request; POST nonce_path b1]
              /\ fst (handshake w st) <> Ok true)
        \/ exists b1 b2,
             sent new = [index_request; POST nonce_path b1; POST proof_path b2]).
Proof.
  rewrite handshake_unfold.
  pose proof (login_do_csrf_log w st) as Hc.
  destruct (login_do_csrf w st) as [r1 st1]. cbn [snd] in Hc.
  assert (Hone : forall r : result bool, r <> Ok true ->
            exists new,
              rt_log (snd (r, st1)) = rt_log st ++ new
              /\ ((sent new = [index_request] /\ fst (r, st1) <> Ok true)
                  \/ (exists b1,
                        sent new = [index_request; POST nonce_path b1]
                        /\ fst (r, st1) <> Ok true)
                  \/ exists b1 b2,
                       sent new = [index_request; POST nonce_path b1; POST proof_path b2])).
  { intros r Hr. exists [Enter CsrfStage; Sent index_request].
    split; [exact Hc|]. left. split; [reflexivity|exact Hr]. }
  destruct r1 as [[|]|e]; [|apply Hone; discriminate|apply Hone; discriminate].
  clear Hone.
  pose proof (login_do_nonce_sends w st1) as Hn.
  destruct (login_do_nonce w st1) as [r2 st2]. cbn [fst snd] in Hn.
  destruct Hn as [[[e He] Hn]|[b1 Hn]].
  { subst r2. exists ([Enter CsrfStage; Sent index_request] ++ [Enter NonceStage]).
    cbn [fst snd]. split; [now rewrite Hn, Hc, <- app_assoc|].
    left. split; [reflexivity|discriminate]. }
  assert (Htwo : forall r : result bool, r <> Ok true ->
            exists new,
              rt_log (snd (r, st2)) = rt_log st ++ new
              /\ ((sent new = [index_request] /\ fst (r, st2) <> Ok true)
                  \/ (exists b1,
                        sent new = [index_request; POST nonce_path b1]
                        /\ fst (r, st2) <> Ok true)
                  \/ exists b1 b2,
                       sent new = [index_request; POST nonce_path b1; POST proof_path b2])).
  { intros r Hr.
    exists ([Enter CsrfStage; Sent index_request]
            ++ [Enter NonceStage; Sent (POST nonce_path b1)]).
    cbn [fst snd]. split; [now rewrite Hn, Hc, <- app_assoc|].
    right. left. exists b1. split; [reflexivity|exact Hr]. }
  destruct r2 as [[|]|e]; [|apply Htwo; discriminate|apply Htwo; discriminate].
  clear Htwo.
  destruct (login_do_proof_sends w st2) as [[[e He] Hp]|[b2 Hp]].
  - exists ([Enter CsrfStage; Sent index_request]
            ++ [Enter NonceStage; Sent (POST nonce_path b1)] ++ [Enter ProofStage]).
    split; [now rewrite Hp, Hn, Hc, <- !app_assoc|].
    right. left. exists b1. split; [reflexivity|]. rewrite He. discriminate.
  - exists ([Enter CsrfStage; Sent index_request]
            ++ [Enter NonceStage; Sent (POST nonce_path b1)]
            ++ [Enter ProofStage; Sent (POST proof_path b2)]).
    split; [now rewrite Hp, Hn, Hc, <- !app_assoc|].
    right. right. exists b1, b2. reflexivity.
Qed.

(** X11: a handshake sends one, two or three requests and never repeats one:
    the GET of the login page, then at most one POST to the nonce path, then
    at most one POST to the proof path; it reports success only after all
    three. *)
Theorem handshake_requests (w : world) (st : router) :
  exists new,
    rt_log (snd (handshake w st)) = rt_log st ++ new
    /\ (sent new = [index_request]
        \/ (exists b1, sent new = [index_request; POST nonce_path b1])
        \/ exists b1 b2,
             sent new = [index_request; POST nonce_path b1; POST proof_path b2])
    /\ (fst (handshake w st) = Ok true ->
        exists b1 b2,
          sent new = [index_request; POST nonce_path b1; POST proof_path b2]).
Proof.
  destruct (handshake_sent w st) as (new & Hlog & Hcases).
  exists new. split; [exact Hlog|]. split.
  - destruct Hcases as [[H _]|[(b1 & H & _)|H]]; eauto.
  - intros Hok. destruct Hcases as [[_ H]|[(b1 & _ & H)|H]];
      [contradiction|contradiction|exact H].
Qed.

Lemma handshake_requests_witness :
  exists b1 b2,
    sent (rt_log (snd (handshake full_reply_device fresh)))
    = [index_request; POST nonce_path b1; POST proof_path b2].
Proof.
  destruct (handshake_requests full_reply_device fresh) as (new & Hlog & _ & Hok).
  rewrite Hlog. apply Hok. vm_compute. reflexivity.
Defined.

(** ** Entering and leaving the session *)

Lemma aenter_unfold (w : world) (st : router) :
  rt_async_ctxmgr st = None ->
  aenter w st
  = match handshake w (entering st) with
    | (Ok b, st') =>
        (Ok tt, Router (rt_password st') (rt_secrets st') b
                       (rt_async_ctxmgr st') (rt_log st'))
    | (Raise e, st') => (Raise e, st')
    end.
Proof. intros H. unfold aenter. now rewrite H. Qed.

Lemma aenter_marks_entered (w : world) (st : router) :
  rt_async_ctxmgr st = None ->
  rt_async_ctxmgr (snd (aenter w st)) = Some true.
Proof.
  intros Hnone. rewrite (aenter_unfold w st Hnone).
  destruct (handshake_frame w (entering st)) as (_ & _ & Hflag).
  destruct (handshake w (entering st)) as [[b|e] st']; cbn [snd] in *; exact Hflag.
Qed.

(** X12: [__aenter__] logs in once per object.  On an object that was entered
    before it returns at once, without a request and without a change, also
    when the first login failed or raised and also after [__aexit__];
    [__aexit__] keeps the logged-in flag, the store and the password, sends
    nothing, and a second [__aexit__] changes nothing. *)
Theorem aenter_only_once (w w' : world) (st : router) :
  rt_async_ctxmgr st = None ->
  let st1 := snd (aenter w st) in
  let st2 := snd (aexit st1) in
  aenter w' st1 = (Ok tt, st1)
  /\ aenter w' st2 = (Ok tt, st2)
  /\ rt_async_ctxmgr st2 = Some false
  /\ rt_logged_in st2 = rt_logged_in st1
  /\ rt_secrets st2 = rt_secrets st1
  /\ rt_password st2 = rt_password st1
  /\ rt_log st2 = rt_log st1
  /\ aexit st2 = (Ok tt, st2).
Proof.
  intros Hnone st1 st2.
  pose proof (aenter_marks_entered w st Hnone) as Hflag. fold st1 in Hflag.
  assert (H2 : st2 = Router (rt_password st1) (rt_secrets st1) (rt_logged_in st1)
                       (Some false) (rt_log st1)).
  { unfold st2, aexit. now rewrite Hflag. }
  split; [unfold aenter; now rewrite Hflag|].
  rewrite H2. repeat split; reflexivity.
Qed.

Lemma aenter_only_once_witness :
  aenter full_reply_device (snd (aenter empty_reply_device fresh))
  = (Ok tt, snd (aenter empty_reply_device fresh)).
Proof.
  refine (proj1 (aenter_only_once empty_reply_device full_reply_device fresh _)).
  reflexivity.
Defined.

Lemma handshake_true_inv (w : world) (st : router) :
  fst (handshake w st) = Ok true <->
  exists st1 st2,
    login_do_csrf w st = (Ok true, st1)
    /\ login_do_nonce w st1 = (Ok true, st2)
    /\ fst (login_do_proof w st2) = Ok true.
Proof.
  rewrite handshake_unfold. split.
  - destruct (login_do_csrf w st) as [[[|]|e] st1]; cbn [fst]; try discriminate.
    destruct (login_do_nonce w st1) as [[[|]|e] st2] eqn:Hn; cbn [fst];
      try discriminate.
    intros H. exists st1, st2. auto.
  - intros (st1 & st2 & -> & -> & H). exact H.
Qed.

(** X13: on a fresh object, [logged_in] is true after [__aenter__] exactly
    when the three stages returned true one after the other; and when it is
    true, salt, iterations, servernonce and firstnonce are in the store. *)
Theorem logged_in_iff (w : world) (st : router) :
  rt_async_ctxmgr st = None ->
  rt_logged_in st = false ->
  (logged_in (snd (aenter w st)) = true <->
   exists st1 st2,
     login_do_csrf w (entering st) = (Ok true, st1)
     /\ login_do_nonce w st1 = (Ok true, st2)
     /\ fst (login_do_proof w st2) = Ok true)
  /\ (logged_in (snd (aenter w st)) = true ->
      has_secret (snd (aenter w st)) "salt"
      /\ has_secret (snd (aenter w st)) "iterations"
      /\ has_secret (snd (aenter w st)) "servernonce"
      /\ has_secret (snd (aenter w st)) "firstnonce").
Proof.
  intros Hnone Hfalse. unfold logged_in.
  rewrite (aenter_unfold w st Hnone), <- handshake_true_inv.
  assert (Hflag : rt_logged_in (snd (handshake w (entering st))) = false).
  { destruct (handshake_frame w (entering st)) as (_ & Hli & _).
    rewrite Hli. exact Hfalse. }
  assert (Hiff : rt_logged_in
                   (snd match handshake w (entering st) with
                        | (Ok b, st') =>
                            (Ok tt, Router (rt_password st') (rt_secrets st') b
                                           (rt_async_ctxmgr st') (rt_log st'))
                        | (Raise e, st') => (Raise e, st')
                        end) = true
                 <-> fst (handshake w (entering st)) = Ok true).
  { destruct (handshake w (entering st)) as [[b|e] st']; cbn [fst snd rt_logged_in] in *.
    - split; [now intros ->|now intros [= ->]].
    - split; [congruence|discriminate]. }
  split; [exact Hiff|].
  intros Hli. apply Hiff in Hli. pose proof Hli as Hok.
  apply handshake_true_inv in Hli. destruct Hli as (st1 & st2 & Hc & Hn & Hp).
  assert (Hsec : rt_secrets (snd (handshake w (entering st))) = rt_secrets st2).
  { rewrite handshake_unfold, Hc, Hn. apply login_do_proof_frame. }
  assert (Hall : forall key,
            In key ["salt"; "iterations"; "servernonce"; "firstnonce"]%string ->
            is_Some (rt_secrets st2 !! key)).
  { intros key Hkey. destruct (rt_secrets st2 !! key) eqn:Ek; [eauto|].
    destruct (login_do_proof_needs_secrets w st2 key Hkey) as [[e He] _].
    - unfold has_secret. rewrite Ek. intros [v Hv]. discriminate Hv.
    - rewrite He in Hp. discriminate Hp. }
  unfold has_secret.
  destruct (handshake w (entering st)) as [[b|e] st']; cbn [fst snd rt_secrets] in *;
    [|discriminate].
  rewrite Hsec. repeat split; apply Hall; simpl; auto.
Qed.

Lemma logged_in_iff_witness :
  has_secret (snd (aenter full_reply_device fresh)) "salt".
Proof.
  refine (proj1 (proj2 (logged_in_iff full_reply_device fresh _ _) _));
    vm_compute; reflexivity.
Defined.

Lemma surjective_pairing_fst {A B} (x : A * B) (a : A) : fst x = a -> x = (a, snd x).
Proof. destruct x. simpl. now intros ->. Qed.

(** ** The entry point *)

Lemma main_unfold (w : world) (password : string) :
  main w password
  = match aenter w (init password None) with
    | (Raise e, st) => (Raise e, st)
    | (Ok _, st) => (fst (main_body w st), snd (aexit (snd (main_body w st))))
    end.
Proof.
  unfold main. destruct (aenter w (init password None)) as [[u|e] st]; [|reflexivity].
  destruct (main_body w st); reflexivity.
Qed.

Lemma main_body_frame (w : world) (st : router) :
  same_identity st (snd (main_body w st))
  /\ rt_secrets (snd (main_body w st)) = rt_secrets st.
Proof.
  unfold same_identity, main_body, get, logged_in. destruct (rt_logged_in st) eqn:Hli; [|auto].
  run_M. destruct (serve w _ _) as [res|e]; [|auto].
  destruct (status res =? 200); [|auto].
  destruct (json res) as [d|e]; [|auto].
  destruct (py_getitem d "ExternalIPAddress"); auto.
Qed.

Lemma aexit_entered (st : router) :
  rt_async_ctxmgr st = Some true ->
  snd (aexit st)
  = Router (rt_password st) (rt_secrets st) (rt_logged_in st) (Some false) (rt_log st).
Proof. intros H. unfold aexit. now rewrite H. Qed.

(** X16: [main] leaves the session exactly when [__aenter__] returned: then
    the object ends up exited, also when the body raised (a missing
    ExternalIPAddress, a response that is not a JSON object), and its
    logged-in flag is the one the login set.  When [__aenter__] raises, [main]
    raises the same exception and the object stays entered: [__aexit__] is
    not run. *)
Theorem main_session (w : world) (password : string) :
  (forall e,
     fst (aenter w (init password None)) = Raise e ->
     main w password = (Raise e, snd (aenter w (init password None)))
     /\ rt_async_ctxmgr (snd (main w password)) = Some true)
  /\ (fst (aenter w (init password None)) = Ok tt ->
      rt_async_ctxmgr (snd (main w password)) = Some false
      /\ rt_logged_in (snd (main w password))
         = rt_logged_in (snd (aenter w (init password None)))
      /\ fst (main w password)
         = fst (main_body w (snd (aenter w (init password None))))).
Proof.
  rewrite main_unfold.
  pose proof (aenter_marks_entered w (init password None) eq_refl) as Hflag.
  destruct (aenter w (init password None)) as [[[]|e] st]; cbn [fst snd] in *.
  - split; [discriminate|]. intros _.
    pose proof (main_body_frame w st) as ((_ & Hli & Hctx) & _).
    rewrite aexit_entered by (rewrite Hctx; exact Hflag).
    cbn [rt_async_ctxmgr rt_logged_in]. auto.
  - split; [|discriminate]. intros e' [= <-]. auto.
Qed.

Lemma main_session_witness :
  rt_async_ctxmgr (snd (main (device EmptyString (PDict []) (PDict []) 0) "test"))
  = Some true.
Proof.
  refine (proj2 (proj1 (main_session (device EmptyString (PDict []) (PDict []) 0) "test")
                   TypeError _)).
  vm_compute. reflexivity.
Defined.

(** ** The stores the CSRF and nonce stages leave *)

(** A CSRF stage that meets status 200 and a match stores the first group
    under csrf_param and the second under csrf_token. *)
Lemma login_do_csrf_captures (w : world) (st : router) (res : response)
    (body : string) (gs : list string) :
  serve w (sent (rt_log st)) index_request = Ok res ->
  text res = Ok body ->
  status res = 200 ->
  re_search csrf_pattern body = Some gs ->
  exists g1 g2 a b c d e,
    gs = [g1; g2] /\ is_token g1 /\ is_token g2
    /\ body = a +:+ "csrf_param" +:+ b +:+ g1 +:+ c +:+ "csrf_token" +:+ d
                +:+ g2 +:+ e
    /\ login_do_csrf w st
       = (Ok true,
          Router (rt_password st)
                 (<["csrf_token" := PStr g2]> (<["csrf_param" := PStr g1]> (rt_secrets st)))
                 (rt_logged_in st) (rt_async_ctxmgr st)
                 (rt_log st ++ [Enter CsrfStage; Sent index_request])).
Proof.
  intros Hserve Htext Hstatus Hm.
  destruct (csrf_pattern_sound body gs Hm)
    as (g1 & g2 & a & b & c & d & e & -> & Ht1 & Ht2 & Hbody).
  exists g1, g2, a, b, c, d, e. repeat (split; [assumption || reflexivity|]).
  unfold login_do_csrf. run_M. rewrite sent_after_enter.
  unfold index_request in Hserve. rewrite Hserve, Htext, Hm, Hstatus.
  cbn. now rewrite <- app_assoc.
Qed.

Lemma login_do_csrf_true_inv (w : world) (st : router) :
  fst (login_do_csrf w st) = Ok true ->
  exists res body gs,
    serve w (sent (rt_log st)) index_request = Ok res
    /\ text res = Ok body /\ status res = 200
    /\ re_search csrf_pattern body = Some gs.
Proof.
  unfold login_do_csrf, index_request. run_M. rewrite sent_after_enter.
  destruct (serve w _ _) as [res|e]; [|discriminate].
  destruct (text res) as [body|e] eqn:Htext; [|discriminate].
  destruct (Z.eqb_spec (status res) 200) as [Hs|Hs]; [|discriminate].
  destruct (re_search csrf_pattern body) as [gs|] eqn:Hm; [|discriminate].
  intros _. exists res, body, gs. auto.
Qed.

Lemma login_do_csrf_not_true_store (w : world) (st : router) :
  fst (login_do_csrf w st) <> Ok true ->
  rt_secrets (snd (login_do_csrf w st)) = rt_secrets st.
Proof.
  unfold login_do_csrf. run_M.
  destruct (serve w _ _) as [res|e]; [|reflexivity].
  destruct (text res) as [body|e]; [|reflexivity].
  destruct (status res =? 200); [|reflexivity].
  destruct (re_search csrf_pattern body); [|reflexivity].
  intros H. now destruct H.
Qed.

(** X8: the CSRF stage returns true exactly when the page arrives with status
    200 and its text matches the token pattern.  It then stores the groups the
    search returned, the first (the run of 32 word characters after the marker
    csrf_param) under csrf_param and the second (the run after csrf_token)
    under csrf_token.  Whenever it does not return true it leaves the store as
    it was. *)
Theorem login_do_csrf_store (w : world) (st : router) :
  (fst (login_do_csrf w st) = Ok true <->
   exists res body gs,
     serve w (sent (rt_log st)) index_request = Ok res
     /\ text res = Ok body /\ status res = 200
     /\ re_search csrf_pattern body = Some gs)
  /\ (forall res body gs,
        serve w (sent (rt_log st)) index_request = Ok res ->
        text res = Ok body ->
        status res = 200 ->
        re_search csrf_pattern body = Some gs ->
        exists g1 g2 a b c d e,
          gs = [g1; g2] /\ is_token g1 /\ is_token g2
          /\ body = a +:+ "csrf_param" +:+ b +:+ g1 +:+ c +:+ "csrf_token" +:+ d
                      +:+ g2 +:+ e
          /\ rt_secrets (snd (login_do_csrf w st))
             = <["csrf_token" := PStr g2]>
                 (<["csrf_param" := PStr g1]> (rt_secrets st)))
  /\ (fst (login_do_csrf w st) <> Ok true ->
      rt_secrets (snd (login_do_csrf w st)) = rt_secrets st).
Proof.
  split; [split|split].
  - apply login_do_csrf_true_inv.
  - intros (res & body & gs & Hserve & Htext & Hs & Hm).
    destruct (login_do_csrf_captures w st res body gs Hserve Htext Hs Hm)
      as (g1 & g2 & _ & _ & _ & _ & _ & _ & _ & _ & _ & ->). reflexivity.
  - intros res body gs Hserve Htext Hs Hm.
    destruct (login_do_csrf_captures w st res body gs Hserve Htext Hs Hm)
      as (g1 & g2 & a & b & c & d & e & Hgs & Ht1 & Ht2 & Hbody & ->).
    exists g1, g2, a, b, c, d, e. auto.
  - apply login_do_csrf_not_true_store.
Qed.

Lemma login_do_csrf_store_witness :
  exists g1 g2 a b c d e,
    ["0123456789abcdef0123456789abcdef"; "fedcba9876543210fedcba9876543210"]%string
    = [g1; g2]
    /\ is_token g1 /\ is_token g2
    /\ page_with_tokens
       = a +:+ "csrf_param" +:+ b +:+ g1 +:+ c +:+ "csrf_token" +:+ d +:+ g2 +:+ e
    /\ rt_secrets (snd (login_do_csrf empty_reply_device fresh))
       = <["csrf_token" := PStr g2]> (<["csrf_param" := PStr g1]> (rt_secrets fresh)).
Proof.
  apply (proj1 (proj2 (login_do_csrf_store empty_reply_device fresh))
           (Response 200 (Ok page_with_tokens) (Raise ValueError)));
    vm_compute; reflexivity.
Defined.

(** The nonce stage when a CSRF token or the user name is missing: the client
    nonce is stored and [KeyError] raised. *)
Lemma login_do_nonce_missing (w : world) (st : router) :
  rt_secrets st !! "csrf_param" = None
  \/ rt_secrets st !! "csrf_token" = None
  \/ rt_secrets st !! "username" = None ->
  exists key,
    login_do_nonce w st
    = (Raise (KeyError key),
       Router (rt_password st)
              (<["firstnonce" := PStr (client_nonce (urandom16 w))]> (rt_secrets st))
              (rt_logged_in st) (rt_async_ctxmgr st)
              (rt_log st ++ [Enter NonceStage])).
Proof.
  intros Hmiss. unfold login_do_nonce. run_M.
  rewrite !lookup_secret_insert_ne by discriminate.
  destruct (rt_secrets st !! "csrf_param") as [cp|] eqn:Hp.
  2: { rewrite (lookup_secret_None _ _ Hp). eauto. }
  rewrite (lookup_secret_Some _ _ _ Hp).
  destruct (rt_secrets st !! "csrf_token") as [ct|] eqn:Ht.
  2: { rewrite (lookup_secret_None _ _ Ht). eauto. }
  rewrite (lookup_secret_Some _ _ _ Ht).
  destruct (rt_secrets st !! "username") as [un|] eqn:Hu.
  2: { rewrite (lookup_secret_None _ _ Hu). eauto. }
  destruct Hmiss as [H|[H|H]]; discriminate H.
Qed.

(** A nonce stage that returned true, with the response it got. *)
Lemma login_do_nonce_true_response (w : world) (st st2 : router) :
  login_do_nonce w st = (Ok true, st2) ->
  exists cp ct un res items,
    rt_secrets st !! "csrf_param" = Some cp
    /\ rt_secrets st !! "csrf_token" = Some ct
    /\ rt_secrets st !! "username" = Some un
    /\ serve w (sent (rt_log st)) (nonce_request cp ct un (urandom16 w)) = Ok res
    /\ json res = Ok (PDict items)
    /\ rt_secrets st2
       = dict_update items
           (<["firstnonce" := PStr (client_nonce (urandom16 w))]> (rt_secrets st))
    /\ rt_log st2
       = rt_log st ++ [Enter NonceStage; Sent (nonce_request cp ct un (urandom16 w))].
Proof.
  intros Hrun.
  destruct (rt_secrets st !! "csrf_param") as [cp|] eqn:Hp.
  2: { destruct (login_do_nonce_missing w st) as [k Hk]; [auto|]. congruence. }
  destruct (rt_secrets st !! "csrf_token") as [ct|] eqn:Ht.
  2: { destruct (login_do_nonce_missing w st) as [k Hk]; [auto|]. congruence. }
  destruct (rt_secrets st !! "username") as [un|] eqn:Hu.
  2: { destruct (login_do_nonce_missing w st) as [k Hk]; [auto|]. congruence. }
  exists cp, ct, un. rewrite (login_do_nonce_run w st cp ct un Hp Ht Hu) in Hrun.
  destruct (serve w _ _) as [res|e]; [|discriminate].
  destruct (status res =? 200); [|discriminate].
  destruct (json res) as [d|e] eqn:Hj; [|discriminate].
  destruct d as [ | | | | |items]; try discriminate.
  destruct (truthy (dict_get items "err")); [discriminate|].
  destruct (truthy (dict_get items "errcode")); [discriminate|].
  injection Hrun as <-. exists res, items. cbn [rt_secrets rt_log].
  rewrite <- app_assoc. auto 10.
Qed.

Lemma login_do_nonce_not_true_store (w : world) (st : router) :
  fst (login_do_nonce w st) <> Ok true ->
  rt_secrets (snd (login_do_nonce w st))
  = <["firstnonce" := PStr (client_nonce (urandom16 w))]> (rt_secrets st).
Proof.
  destruct (rt_secrets st !! "csrf_param") as [cp|] eqn:Hp.
  2: { destruct (login_do_nonce_missing w st) as [k ->]; auto. }
  destruct (rt_secrets st !! "csrf_token") as [ct|] eqn:Ht.
  2: { destruct (login_do_nonce_missing w st) as [k ->]; auto. }
  destruct (rt_secrets st !! "username") as [un|] eqn:Hu.
  2: { destruct (login_do_nonce_missing w st) as [k ->]; auto. }
  rewrite (login_do_nonce_run w st cp ct un Hp Ht Hu).
  destruct (serve w _ _) as [res|e]; [|reflexivity].
  destruct (status res =? 200); [|reflexivity].
  destruct (json res) as [d|e]; [|reflexivity].
  destruct d as [ | | | | |items]; try reflexivity.
  destruct (truthy (dict_get items "err")); [reflexivity|].
  destruct (truthy (dict_get items "errcode")); [reflexivity|].
  intros H. now destruct H.
Qed.

(** X9: on every run, also one that raises [KeyError] because a CSRF token or
    the user name is missing, the nonce stage stores the fresh client nonce
    under firstnonce first.  When it returns true, every field of the JSON
    response has been merged over that store, so a key reads the response's
    value if the response has one (also for firstnonce, username or password)
    and its previous value otherwise; when it does not return true (false or
    any exception), the store is the previous store with the client nonce
    added and nothing else. *)
Theorem login_do_nonce_store (w : world) (st : router) :
  let before := <["firstnonce" := PStr (client_nonce (urandom16 w))]> (rt_secrets st) in
  (fst (login_do_nonce w st) = Ok true ->
   exists cp ct un res items,
     rt_secrets st !! "csrf_param" = Some cp
     /\ rt_secrets st !! "csrf_token" = Some ct
     /\ rt_secrets st !! "username" = Some un
     /\ serve w (sent (rt_log st)) (nonce_request cp ct un (urandom16 w)) = Ok res
     /\ json res = Ok (PDict items)
     /\ forall key,
          rt_secrets (snd (login_do_nonce w st)) !! key
          = match dict_update items ∅ !! key with
            | Some v => Some v
            | None => before !! key
            end)
  /\ (fst (login_do_nonce w st) <> Ok true ->
      rt_secrets (snd (login_do_nonce w st)) = before)
  /\ has_secret (snd (login_do_nonce w st)) "firstnonce".
Proof.
  intros before.
  assert (Htrue : fst (login_do_nonce w st) = Ok true ->
            exists cp ct un res items,
              rt_secrets st !! "csrf_param" = Some cp
              /\ rt_secrets st !! "csrf_token" = Some ct
              /\ rt_secrets st !! "username" = Some un
              /\ serve w (sent (rt_log st)) (nonce_request cp ct un (urandom16 w)) = Ok res
              /\ json res = Ok (PDict items)
              /\ rt_secrets (snd (login_do_nonce w st)) = dict_update items before).
  { intros Hok. apply surjective_pairing_fst in Hok.
    destruct (login_do_nonce_true_response w st _ Hok)
      as (cp & ct & un & res & items & Hp & Ht & Hu & Hs & Hj & Hsec & _).
    exists cp, ct, un, res, items. auto 10. }
  split; [|split].
  - intros Hok.
    destruct (Htrue Hok) as (cp & ct & un & res & items & Hp & Ht & Hu & Hs & Hj & Hsec).
    exists cp, ct, un, res, items. repeat (split; [assumption|]).
    intros key. rewrite Hsec. apply dict_update_lookup.
  - apply login_do_nonce_not_true_store.
  - unfold has_secret.
    assert (Hcases : fst (login_do_nonce w st) = Ok true
                     \/ fst (login_do_nonce w st) <> Ok true).
    { destruct (fst (login_do_nonce w st)) as [[|]|e]; auto; right; discriminate. }
    destruct Hcases as [Hok|Hno].
    + destruct (Htrue Hok) as (_ & _ & _ & _ & items & _ & _ & _ & _ & _ & ->).
      apply dict_update_keeps. unfold before. rewrite lookup_insert_eq. eauto.
    + rewrite (login_do_nonce_not_true_store w st Hno). rewrite lookup_insert_eq. eauto.
Qed.

Lemma login_do_nonce_store_witness :
  rt_secrets (snd (login_do_nonce empty_reply_device fresh))
  = <["firstnonce" := PStr (client_nonce 0)]> (rt_secrets fresh).
Proof.
  apply (proj1 (proj2 (login_do_nonce_store empty_reply_device fresh))).
  vm_compute. discriminate.
Defined.

(** X14: the user name given to [__init__], or admin when none or an empty
    one was given, is the one the nonce request carries: after a CSRF stage
    that returned true on the new object, the nonce stage sends one POST to
    the nonce path with the two groups the pattern search returned on the
    text of the page (the first as csrf_param, the second as csrf_token),
    this user name and the fresh client nonce. *)
Theorem nonce_request_username (w : world) (password : string)
    (username : option string) (st1 : router) :
  login_do_csrf w (entering (init password username)) = (Ok true, st1) ->
  exists res body g1 g2,
    serve w [] index_request = Ok res
    /\ text res = Ok body
    /\ re_search csrf_pattern body = Some [g1; g2]
    /\ rt_log (snd (login_do_nonce w st1))
       = rt_log st1
         ++ [Enter NonceStage;
             Sent (nonce_request (PStr g1) (PStr g2)
                     (PStr (effective_username username)) (urandom16 w))].
Proof.
  intros Hc.
  destruct (login_do_csrf_true_inv w (entering (init password username)))
    as (res & body & gs & Hserve & Htext & Hs & Hm); [now rewrite Hc|].
  destruct (login_do_csrf_captures w _ res body gs Hserve Htext Hs Hm)
    as (g1 & g2 & _ & _ & _ & _ & _ & -> & _ & _ & _ & Hrun).
  rewrite Hc in Hrun. injection Hrun as ->.
  exists res, body, g1, g2. split; [exact Hserve|]. split; [exact Htext|].
  split; [exact Hm|].
  set (st1 := Router _ _ _ _ _).
  assert (Hp : rt_secrets st1 !! "csrf_param" = Some (PStr g1)).
  { cbn [st1 rt_secrets]. rewrite lookup_insert_ne by discriminate.
    apply lookup_insert_eq. }
  assert (Ht : rt_secrets st1 !! "csrf_token" = Some (PStr g2)).
  { cbn [st1 rt_secrets]. apply lookup_insert_eq. }
  assert (Hu : rt_secrets st1 !! "username"
               = Some (PStr (effective_username username))).
  { cbn [st1 rt_secrets entering init].
    do 3 (rewrite lookup_insert_ne by discriminate).
    rewrite lookup_insert_eq. reflexivity. }
  rewrite (login_do_nonce_run w st1 _ _ _ Hp Ht Hu).
  clear Hserve Htext Hs Hm Hc.
  assert (Hlog : forall (r : result bool) sec,
            rt_log (snd (r, Router (rt_password st1) sec (rt_logged_in st1)
                              (rt_async_ctxmgr st1)
                              ((rt_log st1 ++ [Enter NonceStage])
                               ++ [Sent (nonce_request (PStr g1) (PStr g2)
                                           (PStr (effective_username username))
                                           (urandom16 w))])))
            = rt_log st1
              ++ [Enter NonceStage;
                  Sent (nonce_request (PStr g1) (PStr g2)
                          (PStr (effective_username username)) (urandom16 w))]).
  { intros r sec. cbn [snd rt_log]. now rewrite <- app_assoc. }
  destruct (serve w _ _) as [res'|e]; [|apply Hlog].
  destruct (status res' =? 200); [|apply Hlog].
  destruct (json res') as [d|e]; [|apply Hlog].
  destruct d as [ | | | | |items]; try apply Hlog.
  destruct (truthy (dict_get items "err")); [apply Hlog|].
  destruct (truthy (dict_get items "errcode")); apply Hlog.
Qed.

Lemma nonce_request_username_witness :
  exists res body g1 g2,
    serve empty_reply_device [] index_request = Ok res
    /\ text res = Ok body
    /\ re_search csrf_pattern body = Some [g1; g2]
    /\ rt_log (snd (login_do_nonce empty_reply_device
                      (snd (login_do_csrf empty_reply_device
                              (entering (init "pw" (Some EmptyString)))))))
       = rt_log (snd (login_do_csrf empty_reply_device
                        (entering (init "pw" (Some EmptyString)))))
         ++ [Enter NonceStage;
             Sent (nonce_request (PStr g1) (PStr g2) (PStr "admin") 0)].
Proof.
  apply (nonce_request_username empty_reply_device "pw" (Some EmptyString)).
  apply surjective_pairing_fst. vm_compute. reflexivity.
Defined.

(** ** What [main] sends and prints *)

Lemma In_sent (rq : request) (l : list event) : In (Sent rq) l -> In rq (sent l).
Proof.
  induction l as [|e l IH]; simpl; [auto|].
  intros [->|H]; [simpl; auto|]. destruct e; simpl; auto.
Qed.

Lemma aexit_log (st : router) : rt_log (snd (aexit st)) = rt_log st.
Proof. unfold aexit. destruct (rt_async_ctxmgr st) as [[|]|]; reflexivity. Qed.

Lemma main_body_log (w : world) (st : router) :
  rt_log (snd (main_body w st))
  = rt_log st ++ (if logged_in st then [Sent (GET wandetect_path)] else []).
Proof.
  unfold main_body, get. destruct (logged_in st); [|cbn [snd]; now rewrite app_nil_r].
  run_M. destruct (serve w _ _) as [res|e]; [|reflexivity].
  destruct (status res =? 200); [|reflexivity].
  destruct (json res) as [d|e]; [|reflexivity].
  destruct (py_getitem d "ExternalIPAddress"); reflexivity.
Qed.

(** What the body of [main] prints, by the answer to the WAN request. *)
Lemma main_body_run (w : world) (st : router) :
  fst (main_body w st)
  = if logged_in st then
      match serve w (sent (rt_log st)) (GET wandetect_path) with
      | Raise e => Raise e
      | Ok res =>
          if status res =? 200 then
            match json res with
            | Raise e => Raise e
            | Ok (PDict items) =>
                match dict_update items ∅ !! "ExternalIPAddress" with
                | Some v => Ok [py_str v]
                | None => Raise (KeyError "ExternalIPAddress")
                end
            | Ok _ => Raise TypeError
            end
          else Ok []
      end
    else Ok [].
Proof.
  unfold main_body, get. destruct (logged_in st); [|reflexivity].
  run_M. destruct (serve w _ _) as [res|e]; [|reflexivity].
  destruct (status res =? 200); [|reflexivity].
  destruct (json res) as [d|e]; [|reflexivity].
  destruct d as [ | | | | |items]; try reflexivity.
  cbn [py_getitem]. destruct (dict_update items ∅ !! "ExternalIPAddress"); reflexivity.
Qed.

Lemma aenter_log (w : world) (st : router) :
  rt_async_ctxmgr st = None ->
  rt_log (snd (aenter w st)) = rt_log (snd (handshake w (entering st))).
Proof.
  intros Hnone. rewrite (aenter_unfold w st Hnone).
  destruct (handshake w (entering st)) as [[b|e] st']; reflexivity.
Qed.

Lemma handshake_never_asks_wan (w : world) (st : router) :
  ~ In (Sent (GET wandetect_path)) (rt_log st) ->
  ~ In (Sent (GET wandetect_path)) (rt_log (snd (handshake w st))).
Proof.
  intros Hold Hin. destruct (handshake_sent w st) as (new & Hlog & Hcases).
  rewrite Hlog in Hin. apply in_app_or in Hin. destruct Hin as [Hin|Hin]; [auto|].
  apply In_sent in Hin.
  destruct Hcases as [[Hs _]|[(b1 & Hs & _)|(b1 & b2 & Hs)]]; rewrite Hs in Hin;
    simpl in Hin; intuition discriminate.
Qed.

(** X15: on every run, also one that ends in an exception, [main] sends the
    GET to the WAN path exactly when [__aenter__] returned and the object is
    logged in, as the one request after those of the handshake (which never
    asks for that path).  It calls [print] at most once: after a status other
    than 200 it prints nothing, and after status 200 with a JSON object that
    holds ExternalIPAddress it prints the [str] of that value, once. *)
Theorem main_output (w : world) (password : string) :
  let st := snd (aenter w (init password None)) in
  let asks :=
    match fst (aenter w (init password None)) with
    | Ok _ => logged_in st
    | Raise _ => false
    end in
  rt_log (snd (main w password))
  = rt_log st ++ (if asks then [Sent (GET wandetect_path)] else [])
  /\ ~ In (Sent (GET wandetect_path)) (rt_log st)
  /\ (forall lines,
        fst (main w password) = Ok lines ->
        lines = []
        \/ exists res items v,
             asks = true
             /\ serve w (sent (rt_log st)) (GET wandetect_path) = Ok res
             /\ status res = 200
             /\ json res = Ok (PDict items)
             /\ dict_update items ∅ !! "ExternalIPAddress" = Some v
             /\ lines = [py_str v])
  /\ (forall res items v,
        asks = true ->
        serve w (sent (rt_log st)) (GET wandetect_path) = Ok res ->
        status res = 200 ->
        json res = Ok (PDict items) ->
        dict_update items ∅ !! "ExternalIPAddress" = Some v ->
        fst (main w password) = Ok [py_str v])
  /\ (forall res,
        asks = true ->
        serve w (sent (rt_log st)) (GET wandetect_path) = Ok res ->
        status res <> 200 ->
        fst (main w password) = Ok []).
Proof.
  intros st asks.
  assert (Hnever : ~ In (Sent (GET wandetect_path)) (rt_log st)).
  { unfold st. rewrite aenter_log by reflexivity.
    apply handshake_never_asks_wan. simpl. tauto. }
  assert (Hmain : main w password
                  = match fst (aenter w (init password None)) with
                    | Ok _ => (fst (main_body w st), snd (aexit (snd (main_body w st))))
                    | Raise e => (Raise e, st)
                    end).
  { rewrite main_unfold. unfold st.
    destruct (aenter w (init password None)) as [[u|e] st']; reflexivity. }
  rewrite Hmain. clear Hmain. unfold asks. clear asks.
  destruct (fst (aenter w (init password None))) as [u|e]; cbn [fst snd].
  2: { rewrite app_nil_r. split; [reflexivity|]. split; [exact Hnever|].
       split; [discriminate|]. split; [discriminate|]. intros res H. discriminate H. }
  rewrite aexit_log, main_body_log, main_body_run.
  split; [reflexivity|]. split; [exact Hnever|].
  destruct (logged_in st).
  2: { split; [intros lines [= <-]; auto|]. split; [discriminate|].
       intros res H. discriminate H. }
  destruct (serve w (sent (rt_log st)) (GET wandetect_path)) as [res|e].
  2: { split; [discriminate|]. split; [discriminate|]. intros res _ H. discriminate H. }
  destruct (Z.eqb_spec (status res) 200) as [Hs|Hs].
  2: { split; [intros lines [= <-]; auto|].
       split; [intros res' items v _ [= <-] Hs'; contradiction|]. reflexivity. }
  split; [|split].
  - destruct (json res) as [d|e] eqn:Hj; [|discriminate].
    destruct d as [ | | | | |items]; try discriminate.
    destruct (dict_update items ∅ !! "ExternalIPAddress") as [v|] eqn:Hv; [|discriminate].
    intros lines [= <-]. right. exists res, items, v. auto 10.
  - intros res' items v _ [= <-] _ Hj Hv. now rewrite Hj, Hv.
  - intros res' _ [= <-] Hs'. contradiction.
Qed.

Lemma main_output_witness :
  fst (main wan_device "test") = Ok ["203.0.113.7"%string].
Proof.
  refine (proj1 (proj2 (proj2 (proj2 (main_output wan_device "test"))))
            (Response 200 (Ok EmptyString)
               (Ok (PDict [("ExternalIPAddress", PStr "203.0.113.7")])))
            [("ExternalIPAddress", PStr "203.0.113.7")] (PStr "203.0.113.7")
            _ _ _ _ _);
    vm_compute; reflexivity.
Defined.

(** ** The secrets the proof stage finds, in a handshake *)

Lemma init_has_no_server_secrets (password : string) (username : option string)
    (key : string) :
  In key server_secrets -> rt_secrets (entering (init password username)) !! key = None.
Proof.
  unfold server_secrets. simpl.
  intros [<-|[<-|[<-|[]]]]; reflexivity.
Qed.

(** A successful CSRF stage adds no key but csrf_param and csrf_token. *)
Lemma login_do_csrf_true_other_keys (w : world) (st st1 : router) (key : string) :
  login_do_csrf w st = (Ok true, st1) ->
  key <> "csrf_param"%string -> key <> "csrf_token"%string ->
  rt_secrets st1 !! key = rt_secrets st !! key.
Proof.
  intros Hc Hp Ht.
  destruct (login_do_csrf_true_inv w st) as (res & body & gs & Hserve & Htext & Hs & Hm);
    [now rewrite Hc|].
  destruct (login_do_csrf_captures w st res body gs Hserve Htext Hs Hm)
    as (g1 & g2 & _ & _ & _ & _ & _ & _ & _ & _ & _ & Hrun).
  rewrite Hc in Hrun. injection Hrun as ->. cbn [rt_secrets].
  rewrite !lookup_insert_ne by congruence. reflexivity.
Qed.

(** The log of a handshake in which the proof stage is reached. *)
Lemma handshake_reaching_log (w : world) (st st1 st2 : router) :
  login_do_csrf w st = (Ok true, st1) ->
  login_do_nonce w st1 = (Ok true, st2) ->
  exists cp ct un,
    rt_log st2
    = rt_log st ++ [Enter CsrfStage; Sent index_request; Enter NonceStage;
                    Sent (nonce_request cp ct un (urandom16 w))]
    /\ handshake w st = login_do_proof w st2.
Proof.
  intros Hc Hn.
  destruct (login_do_nonce_true_response w st1 st2 Hn)
    as (cp & ct & un & _ & _ & _ & _ & _ & _ & _ & _ & Hlog).
  exists cp, ct, un. split.
  - rewrite Hlog. pose proof (login_do_csrf_log w st) as Hcl. rewrite Hc in Hcl.
    cbn [snd] in Hcl. rewrite Hcl, <- app_assoc. reflexivity.
  - rewrite handshake_unfold, Hc, Hn. reflexivity.
Qed.

(** C5, as the code has it: in every execution of the handshake the proof
    stage is entered exactly when the CSRF stage and the nonce stage returned
    true, no stage checking which secrets are there.  At that point the client
    nonce (firstnonce) is in the store; each of salt, iterations and
    servernonce that the store did not hold before the handshake (an object
    just made by [__init__] holds none of them) is in the store exactly when
    the JSON response to the nonce request carried it; and the proof request
    is sent only when salt, iterations, servernonce and firstnonce are all in
    the store. *)
Theorem handshake_proof_stage_secrets (w : world) (st : router) :
  (forall password username key,
     In key server_secrets ->
     rt_secrets (entering (init password username)) !! key = None)
  /\ exists new,
       rt_log (snd (handshake w st)) = rt_log st ++ new
       /\ (In ProofStage (entered new) <-> exists st2, reaches_proof w st st2)
       /\ (forall st2,
             reaches_proof w st st2 ->
             has_secret st2 "firstnonce"
             /\ (exists st1 cp ct un res items,
                   login_do_csrf w st = (Ok true, st1)
                   /\ serve w (sent (rt_log st1)) (nonce_request cp ct un (urandom16 w))
                      = Ok res
                   /\ json res = Ok (PDict items)
                   /\ forall key,
                        In key server_secrets ->
                        rt_secrets st !! key = None ->
                        (has_secret st2 key <-> is_Some (dict_update items ∅ !! key)))
             /\ ((exists body, In (POST proof_path body) (sent new)) ->
                 has_secret st2 "salt" /\ has_secret st2 "iterations"
                 /\ has_secret st2 "servernonce" /\ has_secret st2 "firstnonce")).
Proof.
  split; [apply init_has_no_server_secrets|].
  assert (Hnone : forall (r : result bool) (x : router) (stages : list stage) new,
            rt_log x = rt_log st ++ new -> entered new = stages ->
            ~ In ProofStage stages ->
            (forall st2, ~ reaches_proof w st st2) ->
            exists new,
              rt_log (snd (r, x)) = rt_log st ++ new
              /\ (In ProofStage (entered new) <-> exists st2, reaches_proof w st st2)
              /\ (forall st2,
                    reaches_proof w st st2 ->
                    has_secret st2 "firstnonce"
                    /\ (exists st1 cp ct un res items,
                          login_do_csrf w st = (Ok true, st1)
                          /\ serve w (sent (rt_log st1))
                               (nonce_request cp ct un (urandom16 w)) = Ok res
                          /\ json res = Ok (PDict items)
                          /\ forall key,
                               In key server_secrets ->
                               rt_secrets st !! key = None ->
                               (has_secret st2 key
                                <-> is_Some (dict_update items ∅ !! key)))
                    /\ ((exists body, In (POST proof_path body) (sent new)) ->
                        has_secret st2 "salt" /\ has_secret st2 "iterations"
                        /\ has_secret st2 "servernonce"
                        /\ has_secret st2 "firstnonce"))).
  { intros r x stages new Hlog Hent Hnot Hunreach. exists new.
    split; [exact Hlog|]. split.
    - rewrite Hent. split; [intros H; contradiction|].
      intros [st2 H]. destruct (Hunreach st2 H).
    - intros st2 H. destruct (Hunreach st2 H). }
  pose proof (login_do_csrf_log w st) as Hcl.
  rewrite handshake_unfold. revert Hnone Hcl.
  destruct (login_do_csrf w st) as [r1 st1] eqn:Ec. cbn [snd]. intros Hnone Hcl.
  destruct r1 as [[|]|e].
  2: { cbn [snd]. apply (Hnone (Ok false) st1 [CsrfStage] _ Hcl eq_refl).
       - simpl. intros [H|[]]. discriminate H.
       - intros st2 (st1' & Hc' & _). rewrite Ec in Hc'. discriminate Hc'. }
  2: { cbn [snd]. apply (Hnone (Raise e) st1 [CsrfStage] _ Hcl eq_refl).
       - simpl. intros [H|[]]. discriminate H.
       - intros st2 (st1' & Hc' & _). rewrite Ec in Hc'. discriminate Hc'. }
  destruct (login_do_nonce w st1) as [r2 st2] eqn:En.
  assert (Hstop : r2 <> Ok true ->
            exists new,
              rt_log st2 = rt_log st ++ new /\ entered new = [CsrfStage; NonceStage]).
  { intros _. destruct (login_do_nonce_log w st1) as (nreqs & Hnl & _).
    rewrite En in Hnl. cbn [snd] in Hnl.
    exists ([Enter CsrfStage; Sent (GET "/html/index.html")]
            ++ Enter NonceStage :: map Sent nreqs).
    split; [now rewrite Hnl, Hcl, <- app_assoc|].
    simpl. now rewrite entered_map_Sent. }
  destruct r2 as [[|]|e].
  2: { destruct Hstop as (new & Hlog & Hent); [discriminate|].
       cbn [snd]. apply (Hnone (Ok false) st2 [CsrfStage; NonceStage] new Hlog Hent).
       - simpl. intros [H|[H|[]]]; discriminate H.
       - intros st2' (st1' & Hc' & Hn'). rewrite Ec in Hc'. injection Hc' as <-.
         rewrite En in Hn'. discriminate Hn'. }
  2: { destruct Hstop as (new & Hlog & Hent); [discriminate|].
       cbn [snd]. apply (Hnone (Raise e) st2 [CsrfStage; NonceStage] new Hlog Hent).
       - simpl. intros [H|[H|[]]]; discriminate H.
       - intros st2' (st1' & Hc' & Hn'). rewrite Ec in Hc'. injection Hc' as <-.
         rewrite En in Hn'. discriminate Hn'. }
  clear Hnone Hstop.
  destruct (login_do_nonce_true_response w st1 st2 En)
    as (cp & ct & un & res & items & Hp & Ht & Hu & Hserve & Hj & Hsec & Hnl).
  assert (Hreach : reaches_proof w st st2) by (exists st1; rewrite Ec; auto).
  assert (Huniq : forall st2', reaches_proof w st st2' -> st2' = st2).
  { intros st2' (st1' & Hc' & Hn'). rewrite Ec in Hc'. injection Hc' as <-.
    rewrite En in Hn'. now injection Hn'. }
  assert (Hfn : has_secret st2 "firstnonce").
  { unfold has_secret. rewrite Hsec. apply dict_update_keeps.
    rewrite lookup_insert_eq. eauto. }
  assert (Hkeys : forall key,
            In key server_secrets -> rt_secrets st !! key = None ->
            (has_secret st2 key <-> is_Some (dict_update items ∅ !! key))).
  { intros key Hkey Hold. unfold has_secret.
    rewrite Hsec, dict_update_lookup.
    destruct (dict_update items ∅ !! key) as [v|]; [split; eauto|].
    assert (Hne : key <> "firstnonce"%string /\ key <> "csrf_param"%string
                  /\ key <> "csrf_token"%string).
    { unfold server_secrets in Hkey. simpl in Hkey.
      destruct Hkey as [<-|[<-|[<-|[]]]]; repeat split; discriminate. }
    destruct Hne as (Hn1 & Hn2 & Hn3).
    rewrite lookup_insert_ne by congruence.
    rewrite (login_do_csrf_true_other_keys w st st1 key Ec Hn2 Hn3), Hold.
    split; intros [v Hv]; discriminate Hv. }
  destruct (login_do_proof_sends w st2) as [[_ Hpl]|[body Hpl]].
  - exists ([Enter CsrfStage; Sent index_request; Enter NonceStage;
             Sent (nonce_request cp ct un (urandom16 w))] ++ [Enter ProofStage]).
    split; [rewrite Hpl, Hnl, Hcl, <- !app_assoc; reflexivity|].
    split; [split; [eauto|intros _; simpl; auto]|].
    intros st2' Hr. rewrite (Huniq st2' Hr). split; [exact Hfn|]. split.
    + exists st1, cp, ct, un, res, items. auto.
    + intros [b Hin]. simpl in Hin.
      destruct Hin as [H|[H|[]]]; discriminate H.
  - exists ([Enter CsrfStage; Sent index_request; Enter NonceStage;
             Sent (nonce_request cp ct un (urandom16 w))]
            ++ [Enter ProofStage; Sent (POST proof_path body)]).
    split; [rewrite Hpl, Hnl, Hcl, <- !app_assoc; reflexivity|].
    split; [split; [eauto|intros _; simpl; auto]|].
    intros st2' Hr. rewrite (Huniq st2' Hr). split; [exact Hfn|]. split.
    + exists st1, cp, ct, un, res, items. auto.
    + intros _.
      assert (Hall : forall key,
                In key ["salt"; "iterations"; "servernonce"; "firstnonce"]%string ->
                has_secret st2 key).
      { intros key Hkey. unfold has_secret.
        destruct (rt_secrets st2 !! key) eqn:Ek; [eauto|].
        destruct (login_do_proof_needs_secrets w st2 key Hkey) as [_ Hshort].
        { unfold has_secret. rewrite Ek. intros [v Hv]. discriminate Hv. }
        rewrite Hshort in Hpl. apply app_inv_head in Hpl. discriminate Hpl. }
      repeat split; apply Hall; simpl; auto.
Qed.

Lemma handshake_proof_stage_secrets_witness :
  has_secret (after_nonce full_reply_device) "firstnonce".
Proof.
  destruct (proj2 (handshake_proof_stage_secrets full_reply_device fresh))
    as (new & _ & _ & Hreached).
  refine (proj1 (Hreached (after_nonce full_reply_device) _)).
  apply reaches_proof_intro; vm_compute; reflexivity.
Defined.
